(** * KerasNLP preset infrastructure: Task, Preprocessor, MistralTokenizer

    A shallow embedding of
      - [keras_nlp/src/models/task.py]          (class [Task]),
      - [keras_nlp/src/models/preprocessor.py]  (class [Preprocessor]),
      - [keras_nlp/src/models/mistral/mistral_tokenizer.py]
                                                 (class [MistralTokenizer]),
    with the properties their specification states about them.

    Python objects are mutable, so every method is a computation over an
    explicit state that may raise; the state reached when an exception
    escapes is kept, because that is what the caller observes. *)

From Stdlib Require Import String Ascii List ZArith Lia Bool.
From stdpp Require Import base gmap strings list fin_maps.

Local Open Scope string_scope.

(* ===================================================================== *)
(** * Python runtime: exceptions, stateful computations, strings, dicts   *)
(* ===================================================================== *)

(** The exception classes that the modelled code raises.
    [UnsupportedPresetError] and [WeightShapeMismatchError] are the names
    the specification gives to the failures of the subclass search and of
    the loading of weights, whose sources are not part of the modelled
    files. *)
Inductive exn : Type :=
| ValueError (msg : string)
| AttributeError (msg : string)
| KeyError (msg : string)
| UnsupportedPresetError (preset family : string)
| WeightShapeMismatchError (cls : string)
| OSError (msg : string).

Inductive result (A : Type) : Type :=
| Ok (a : A)
| Raise (e : exn).
Arguments Ok {A} a.
Arguments Raise {A} e.

(** A method body: runs on a state, returns or raises, and leaves a state. *)
Definition M (S A : Type) : Type := S → result A * S.

Global Instance M_ret {S} : MRet (M S) := λ A a s, (Ok a, s).
Global Instance M_bind {S} : MBind (M S) := λ A B f m s,
  match m s with
  | (Ok a, s') => f a s'
  | (Raise e, s') => (Raise e, s')
  end.

Definition raise {S A} (e : exn) : M S A := λ s, (Raise e, s).
Definition get {S} : M S S := λ s, (Ok s, s).
Definition modify {S} (f : S → S) : M S unit := λ s, (Ok tt, f s).
(** A call that cannot touch the state. *)
Definition lift {S A} (r : result A) : M S A := λ s, (r, s).

(** [if b: body] *)
Definition when {S} (b : bool) (body : M S unit) : M S unit :=
  if b then body else mret tt.

(** [for x in xs: body(x)] *)
Fixpoint for_each {S A} (xs : list A) (body : A → M S unit) : M S unit :=
  match xs with
  | [] => mret tt
  | x :: xs' => body x ;; for_each xs' body
  end.

(** [str.endswith] *)
Definition endswith (s suffix : string) : bool :=
  bool_decide (list_ascii_of_string suffix `suffix_of` list_ascii_of_string s).

(** [dict.update]: every key of [other] is (re)bound in [d]. stdpp's
    union keeps the left binding, so [other] goes on the left. *)
Definition dict_update {V} (d other : gmap string V) : gmap string V :=
  other ∪ d.

(** An attribute slot of an object holding an integer id: the attribute
    may not exist yet, may hold [None], or may hold an [int]. *)
Inductive attr : Type :=
| Unset
| PyNone
| PyInt (i : Z).

(* ===================================================================== *)
(** * mistral_tokenizer.py                                                *)
(* ===================================================================== *)

(** The tokenizer object: the state of the SentencePiece base class (the
    vocabulary built from the proto) and the attributes [MistralTokenizer]
    adds. *)
Record mistral_tokenizer : Type := {
  vocabulary : option (gmap string Z);
  start_token : string;
  end_token : string;
  start_token_id : attr;
  end_token_id : attr;
}.

Definition with_vocabulary (v : option (gmap string Z)) (t : mistral_tokenizer) :=
  {| vocabulary := v; start_token := start_token t; end_token := end_token t;
     start_token_id := start_token_id t; end_token_id := end_token_id t |}.
Definition with_start_token_id (a : attr) (t : mistral_tokenizer) :=
  {| vocabulary := vocabulary t; start_token := start_token t;
     end_token := end_token t;
     start_token_id := a; end_token_id := end_token_id t |}.
Definition with_end_token_id (a : attr) (t : mistral_tokenizer) :=
  {| vocabulary := vocabulary t; start_token := start_token t;
     end_token := end_token t;
     start_token_id := start_token_id t; end_token_id := a |}.
Definition with_tokens (s e : string) (t : mistral_tokenizer) :=
  {| vocabulary := vocabulary t; start_token := s; end_token := e;
     start_token_id := start_token_id t; end_token_id := end_token_id t |}.

Module SentencePieceTokenizer.

(** Modelled from the spec: [SentencePieceTokenizer.set_proto]
    (keras_nlp/src/tokenizers/sentence_piece_tokenizer.py is outside the
    modelled files). The vocabulary source is represented by the
    mapping it serialises (spec 3: a mapping from token string to
    integer id). "On non-None input: builds the token/id mapping";
    "On None input: clears the mapping". *)
Definition set_proto (proto : option (gmap string Z)) : M mistral_tokenizer unit :=
  modify (with_vocabulary proto).

(** Modelled from the spec: [SentencePieceTokenizer.get_vocabulary],
    the list of the tokens of the configured mapping. *)
Definition get_vocabulary : M mistral_tokenizer (list string) :=
  self ← get;
  match vocabulary self with
  | Some v => mret (map fst (map_to_list v))
  | None => raise (AttributeError "'NoneType' object has no vocabulary")
  end.

(** Modelled from the spec: [SentencePieceTokenizer.token_to_id], the
    token to id lookup of the configured mapping. The spec does not say
    what the lookup of an absent token gives; it is an error here. *)
Definition token_to_id (token : string) : M mistral_tokenizer Z :=
  self ← get;
  match vocabulary self with
  | Some v =>
      match v !! token with
      | Some i => mret i
      | None => raise (KeyError token)
      end
  | None => raise (AttributeError "'NoneType' object has no vocabulary")
  end.

End SentencePieceTokenizer.

Module MistralTokenizer.

(** An object on which [__init__] has not run yet: no attribute exists. *)
Definition new_object : mistral_tokenizer :=
  {| vocabulary := None; start_token := ""; end_token := "";
     start_token_id := Unset; end_token_id := Unset |}.

(** The f-string of the [ValueError] in [set_proto]. *)
Definition missing_token_message (token : string) : string :=
  "Cannot find token `'" +:+ token +:+ "'` in the provided "
  +:+ "`vocabulary`. Please provide `'" +:+ token +:+ "'` in your "
  +:+ "`vocabulary` or use a pretrained `vocabulary` name.".

(** [MistralTokenizer.set_proto] *)
Definition set_proto (proto : option (gmap string Z)) : M mistral_tokenizer unit :=
  SentencePieceTokenizer.set_proto proto ;;
  match proto with
  | Some _ =>
      self ← get;
      for_each [start_token self; end_token self] (λ token,
        vocab ← SentencePieceTokenizer.get_vocabulary;
        if bool_decide (token ∈ vocab)
        then mret tt
        else raise (ValueError (missing_token_message token))) ;;
      self ← get;
      i ← SentencePieceTokenizer.token_to_id (start_token self);
      modify (with_start_token_id (PyInt i)) ;;
      self ← get;
      i ← SentencePieceTokenizer.token_to_id (end_token self);
      modify (with_end_token_id (PyInt i))
  | None =>
      modify (with_start_token_id PyNone) ;;
      modify (with_end_token_id PyNone)
  end.

(** Modelled from the spec: the constructor of the base class
    ([super().__init__(proto=proto, **kwargs)]), which is outside the
    modelled files; it configures the proto through [self.set_proto]
    (spec 3: the ids are "computed once at configuration time"). *)
Definition super_init (proto : option (gmap string Z))
  : M mistral_tokenizer unit :=
  set_proto proto.

(** [MistralTokenizer.__init__] *)
Definition __init__ (proto : option (gmap string Z))
  : M mistral_tokenizer unit :=
  modify (with_tokens "<s>" "</s>") ;;
  super_init proto.

(** The invariant [__init__] sets up and no method changes. *)
Definition special_tokens_set (t : mistral_tokenizer) : Prop :=
  start_token t = "<s>" ∧ end_token t = "</s>".

End MistralTokenizer.

(* ===================================================================== *)
(** * Objects of a task: weights, backbone, preprocessor                  *)
(* ===================================================================== *)

(** [id(obj)]: variables and layers are mutable objects that several
    owners share (a backbone variable is also a variable of the task), so
    an object is its identity and the tensor a variable holds lives in a
    store. *)
Definition object_id := nat.
Definition tensor := list Z.

Record backbone_obj : Type := {
  backbone_name : string;
  backbone_weights : list object_id;          (* [backbone.weights] *)
  backbone_flatten_layers : list object_id;   (* [backbone._flatten_layers()] *)
}.

Record preprocessor_obj : Type := {
  preprocessor_name : string;
  tokenizer : option string;                  (* [self.tokenizer], by name *)
}.

Record task_obj : Type := {
  name : string;
  repr : string;                              (* [str(self)] *)
  weights : list object_id;                   (* [self.weights] *)
  backbone : option backbone_obj;             (* [self.backbone] *)
  preprocessor : option preprocessor_obj;     (* [self.preprocessor] *)
}.

(** The calls into collaborators whose code is outside the modelled files
    (Keras saving, the preset utilities, the backbone and the tokenizer),
    in the order they are made. *)
Inductive io_call : Type :=
| save_serialized_object (obj preset_dir config_file : string)
| keras_saving_save_weights (obj filepath : string) (objects_to_skip : gset object_id)
| keras_saving_load_weights (obj filepath : string) (objects_to_skip : gset object_id)
| tokenizer_save_to_preset (obj preset_dir : string)
| backbone_save_to_preset (obj preset_dir : string).

(** What the methods of a task act on: the tensors of the variables, the
    collaborator calls made so far, and how the collaborators answer:
    [answers w history c] is the exception that the call [c] raises when
    it is made after the calls [history], and [None] when it returns. *)
Record world : Type := {
  store : gmap object_id tensor;
  calls : list io_call;
  answers : list io_call → io_call → option exn;
}.

(** The world in which one more call has been made. *)
Definition logged (c : io_call) (w : world) : world :=
  {| store := store w; calls := (calls w ++ [c])%list; answers := answers w |}.

(** A call to a collaborator: the call is made, and it returns or raises
    as the collaborator answers; an exception goes to the caller. *)
Definition perform (c : io_call) : M world unit :=
  λ w, match answers w (calls w) c with
       | None => (Ok tt, logged c w)
       | Some e => (Raise e, logged c w)
       end.

(** [os.path.join(a, b)] (posixpath). *)
Definition os_path_join (a b : string) : string :=
  if String.prefix "/" b then b
  else if String.eqb a "" || endswith a "/" then a +:+ b
  else a +:+ "/" +:+ b.

(* ===================================================================== *)
(** * Configurations: [get_config] and [from_config]                      *)
(* ===================================================================== *)

#[local] Set Warnings "-register-all".

(** The values a configuration dict holds: [None], a string, a nested
    dict (a serialized object) or an object. *)
Inductive pyvalue : Type :=
| VNone
| VStr (s : string)
| VDict (d : list (string * pyvalue))
| VBackbone (b : backbone_obj)
| VPreprocessor (p : preprocessor_obj)
| VTokenizer (t : string).

(** [self.backbone], [self.preprocessor] and [self.tokenizer] as values. *)
Definition backbone_value (b : option backbone_obj) : pyvalue :=
  match b with Some b => VBackbone b | None => VNone end.
Definition preprocessor_value (p : option preprocessor_obj) : pyvalue :=
  match p with Some p => VPreprocessor p | None => VNone end.
Definition tokenizer_value (t : option string) : pyvalue :=
  match t with Some t => VTokenizer t | None => VNone end.

(** The statement that [from_config] has for each object it rebuilds, on
    the dict [config] that the caller passed:
    [[
      if key in config and isinstance(config[key], dict):
          config[key] = keras.layers.deserialize(config[key])
    ]] *)
Definition deserialize_entry
    (deserialize : list (string * pyvalue) → result pyvalue) (key : string)
  : M (gmap string pyvalue) unit :=
  config ← get;
  match config !! key with
  | Some (VDict d) =>
      value ← lift (deserialize d);
      modify (λ config : gmap string pyvalue, <[key := value]> config)
  | _ => mret tt
  end.

(** [list.remove(x)]: the first item equal to [x] goes; [None] stands for
    the [ValueError] of a list without [x]. *)
Fixpoint list_remove (x : object_id) (l : list object_id)
  : option (list object_id) :=
  match l with
  | [] => None
  | y :: l' =>
      if decide (y = x) then Some l'
      else cons y <$> list_remove x l'
  end.

(* ===================================================================== *)
(** * Classes, the preset registry and the preset loader                  *)
(* ===================================================================== *)

(** A class is its qualified name: two class objects are equal exactly
    when they are the same class. *)
Abbreviation Cls := string (only parsing).
(** The metadata a preset key is bound to. *)
Abbreviation preset_info := string (only parsing).
(** [**kwargs] *)
Abbreviation kwargs := (list (string * string)) (only parsing).

Definition Task_class : Cls := "keras_nlp.models.Task".
Definition Preprocessor_class : Cls := "keras_nlp.models.Preprocessor".

(** What a loader constructs. *)
Record instance : Type := {
  type_of : Cls;
  init_kwargs : kwargs;
  weights_loaded : bool;
}.

(** The object [get_preset_loader(preset)] returns; its class is in
    [preset_utils], which is outside the modelled files. It knows the
    backbone class the preset declares (when the preset has a readable
    configuration) and whether the weights of the preset fit a class. *)
Record preset_loader : Type := {
  check_backbone_class : result Cls;
  weights_fit : Cls → bool;
}.

(** Modelled from the spec: [loader.load_task(cls, load_weights, **kwargs)]
    is outside the modelled files. Spec 4.3, step 4: "Construct the
    resolved class with the auxiliary arguments, optionally skipping
    weight loading"; "fail with a WeightShapeMismatchError [...] if shapes
    disagree". *)
Definition load_task (loader : preset_loader) (cls : Cls)
    (load_weights : bool) (args : kwargs) : result instance :=
  if load_weights && negb (weights_fit loader cls)
  then Raise (WeightShapeMismatchError cls)
  else Ok {| type_of := cls; init_kwargs := args;
             weights_loaded := load_weights |}.

(** Modelled from the spec: [loader.load_preprocessor(cls, **kwargs)] is
    outside the modelled files. Spec 4.3, step 4: "Construct the resolved
    class with the auxiliary arguments". *)
Definition load_preprocessor (loader : preset_loader) (cls : Cls)
    (args : kwargs) : result instance :=
  Ok {| type_of := cls; init_kwargs := args; weights_loaded := false |}.

(** The class attributes the code reads and the functions of
    [preset_utils] it calls, which are outside the modelled files:
    they are parameters of the development. *)
Record environment : Type := {
  backbone_cls : Cls → option Cls;              (* [cls.backbone_cls] *)
  tokenizer_cls : Cls → option Cls;             (* [cls.tokenizer_cls] *)
  list_presets : Cls → gmap string preset_info; (* [list_presets(cls)], a new dict *)
  list_subclasses : Cls → list Cls;             (* [list_subclasses(cls)] *)
  (** [presets] of a backbone class or of a tokenizer class *)
  companion_presets : Cls → gmap string preset_info;
  get_preset_loader : string → result preset_loader;
}.

(** The calls [from_preset] makes, in order. *)
Inductive loader_call : Type :=
| get_preset_loader_call (preset : string)
| check_backbone_class_call (preset : string)
| find_subclass_call (preset : string) (cls backbone_cls : Cls)
| load_task_call (preset : string) (cls : Cls) (load_weights : bool) (args : kwargs)
| load_preprocessor_call (preset : string) (cls : Cls) (args : kwargs).

(** Make a call: record it, then return or raise as the callee does. *)
Definition call {A} (c : loader_call) (r : result A) : M (list loader_call) A :=
  modify (λ tr, (tr ++ [c])%list) ;; lift r.

Section PresetUtils.

Variable env : environment.

(** Modelled from the spec: [preset_utils.find_subclass] is outside the
    modelled files. Spec 4.3, step 3: "enumerate all known subclasses
    (transitively) of the invoking class and select the one whose
    declared backbone family equals the preset's declared family";
    "zero matches is a hard error (UnsupportedPresetError, naming the
    preset and the expected family)". Among several matches the first
    of the enumeration is taken (spec 9: "appears to pick the first
    found"). *)
Definition find_subclass (preset : string) (cls backbone : Cls) : result Cls :=
  match filter (λ x, backbone_cls env x = Some backbone)
               (list_subclasses env cls) with
  | [] => Raise (UnsupportedPresetError preset backbone)
  | subclass :: _ => Ok subclass
  end.

(** The body that [Task.presets] and [Preprocessor.presets] share; they
    differ in the class attribute they read ([backbone_cls] for a task,
    [tokenizer_cls] for a preprocessor).

    [[
      presets = list_presets(cls)
      if cls.<attribute> is not None:
          presets.update(cls.<attribute>.presets)
      for subclass in list_subclasses(cls):
          presets.update(subclass.presets)
      return presets
    ]]

    [subclass.presets] is the same property, evaluated on the subclass;
    [fuel] bounds the depth of that recursion and [None] means that it
    was not enough. *)
Fixpoint class_presets (attribute : Cls → option Cls)
    (fuel : nat) (cls : Cls) : option (gmap string preset_info) :=
  match fuel with
  | 0 => None
  | S fuel =>
      let presets := list_presets env cls in
      let presets :=
        match attribute cls with
        | Some c => dict_update presets (companion_presets env c)
        | None => presets
        end in
      foldl (λ acc subclass,
               presets ← acc;
               other ← class_presets attribute fuel subclass;
               Some (dict_update presets other))
            (Some presets) (list_subclasses env cls)
  end.

End PresetUtils.

(* ===================================================================== *)
(** * preprocessor.py                                                     *)
(* ===================================================================== *)

Module Preprocessor.
Section WithEnvironment.

Variable env : environment.
(** [PREPROCESSOR_CONFIG_FILE] of [preset_utils]. *)
Variable PREPROCESSOR_CONFIG_FILE : string.

(** [Preprocessor.presets] *)
Definition presets : nat → Cls → option (gmap string preset_info) :=
  class_presets env (tokenizer_cls env).

Definition direct_call_message : string :=
  "Do not call `Preprocessor.from_preset()` directly. Instead call a "
  +:+ "choose a particular task class, e.g. "
  +:+ "`keras_nlp.models.BertPreprocessor.from_preset()`.".

(** [Preprocessor.from_preset] *)
Definition from_preset (cls : Cls) (preset : string) (args : kwargs)
  : M (list loader_call) instance :=
  if bool_decide (cls = Preprocessor_class)
  then raise (ValueError direct_call_message)
  else
    loader ← call (get_preset_loader_call preset)
                  (get_preset_loader env preset);
    backbone ← call (check_backbone_class_call preset)
                    (check_backbone_class loader);
    cls ← (if bool_decide (backbone_cls env cls ≠ Some backbone)
           then call (find_subclass_call preset cls backbone)
                     (find_subclass env preset cls backbone)
           else mret cls);
    call (load_preprocessor_call preset cls args)
         (load_preprocessor loader cls args).

(** [Preprocessor.save_to_preset] *)
Definition save_to_preset (self : preprocessor_obj) (preset_dir : string)
  : M world unit :=
  perform (save_serialized_object (preprocessor_name self) preset_dir
             PREPROCESSOR_CONFIG_FILE) ;;
  match tokenizer self with
  | Some tok => perform (tokenizer_save_to_preset tok preset_dir)
  | None =>
      raise (AttributeError
               "'NoneType' object has no attribute 'save_to_preset'")
  end.

(** [keras.layers.serialize] and [keras.layers.deserialize], the
    configuration the base layer gives ([super().get_config()]) and the
    constructor, called as [cls] on [config] spread into keyword
    arguments: collaborators. *)
Variable serialize : pyvalue → pyvalue.
Variable deserialize : list (string * pyvalue) → result pyvalue.
Variable base_get_config : preprocessor_obj → gmap string pyvalue.
Variable constructed : Type.
Variable construct : Cls → gmap string pyvalue → result constructed.

(** [Preprocessor.get_config] *)
Definition get_config (self : preprocessor_obj) : gmap string pyvalue :=
  let config := base_get_config self in
  <["tokenizer" := serialize (tokenizer_value (tokenizer self))]> config.

(** [Preprocessor.from_config], acting on the dict it is given. *)
Definition from_config (cls : Cls) : M (gmap string pyvalue) constructed :=
  deserialize_entry deserialize "tokenizer" ;;
  config ← get;
  lift (construct cls config).

End WithEnvironment.
End Preprocessor.

(* ===================================================================== *)
(** * task.py                                                             *)
(* ===================================================================== *)

Module Task.
Section WithEnvironment.

Variable env : environment.
(** [TASK_CONFIG_FILE], [TASK_WEIGHTS_FILE] and
    [PREPROCESSOR_CONFIG_FILE] of [preset_utils]. *)
Variables TASK_CONFIG_FILE TASK_WEIGHTS_FILE PREPROCESSOR_CONFIG_FILE : string.
(** What [keras.saving.load_weights] leaves in the variables, whether it
    returns or raises: the content of the file decides it, not the
    program. *)
Variable read_weights_file :
  string → gset object_id → gmap object_id tensor → gmap object_id tensor.

(** [Task.presets] *)
Definition presets : nat → Cls → option (gmap string preset_info) :=
  class_presets env (backbone_cls env).

Definition direct_call_message : string :=
  "Do not call `Task.from_preset()` directly. Instead call a "
  +:+ "particular task class, e.g. "
  +:+ "`keras_nlp.models.Classifier.from_preset()` or "
  +:+ "`keras_nlp.models.BertClassifier.from_preset()`.".

(** [Task.from_preset] *)
Definition from_preset (cls : Cls) (preset : string)
    (load_weights : bool) (args : kwargs)
  : M (list loader_call) instance :=
  if bool_decide (cls = Task_class)
  then raise (ValueError direct_call_message)
  else
    loader ← call (get_preset_loader_call preset)
                  (get_preset_loader env preset);
    backbone ← call (check_backbone_class_call preset)
                    (check_backbone_class loader);
    cls ← (if bool_decide (backbone_cls env cls ≠ Some backbone)
           then call (find_subclass_call preset cls backbone)
                     (find_subclass env preset cls backbone)
           else mret cls);
    call (load_task_call preset cls load_weights args)
         (load_task loader cls load_weights args).

(** [set(id(w) for w in self.backbone._flatten_layers())] *)
Definition backbone_layer_ids (self : task_obj) : result (gset object_id) :=
  match backbone self with
  | Some b => Ok (list_to_set (backbone_flatten_layers b))
  | None =>
      Raise (AttributeError
               "'NoneType' object has no attribute '_flatten_layers'")
  end.

Definition load_suffix_message : string :=
  "The filename must end in `.weights.h5`. Received: filepath={filepath}".

(** [Task.load_task_weights] *)
Definition load_task_weights (self : task_obj) (filepath : string)
  : M world unit :=
  if negb (endswith filepath ".weights.h5")
  then raise (ValueError load_suffix_message)
  else
    backbone_layer_ids ← lift (backbone_layer_ids self);
    modify (λ w, {| store := read_weights_file filepath backbone_layer_ids (store w);
                    calls := calls w; answers := answers w |}) ;;
    perform (keras_saving_load_weights (name self) filepath backbone_layer_ids).

(** [Task.has_task_weights] *)
Definition has_task_weights (self : task_obj) : result bool :=
  let task_weight_ids : gset object_id := list_to_set (weights self) in
  match backbone self with
  | Some b =>
      let backbone_weight_ids : gset object_id :=
        list_to_set (backbone_weights b) in
      Ok (negb (bool_decide (task_weight_ids ⊆ backbone_weight_ids)))
  | None =>
      Raise (AttributeError "'NoneType' object has no attribute 'weights'")
  end.

Definition save_suffix_message (filepath : string) : string :=
  "The filename must end in `.weights.h5`. "
  +:+ "Received: filepath=" +:+ filepath.

Definition nothing_to_save_message (self : task_obj) : string :=
  "Task " +:+ repr self +:+ " has no weights not in the `backbone`. "
  +:+ "`save_task_weights()` has nothing to save.".

(** [Task.save_task_weights] *)
Definition save_task_weights (self : task_obj) (filepath : string)
  : M world unit :=
  if negb (endswith filepath ".weights.h5")
  then raise (ValueError (save_suffix_message filepath))
  else
    backbone_layer_ids ← lift (backbone_layer_ids self);
    has ← lift (has_task_weights self);
    if negb has
    then raise (ValueError (nothing_to_save_message self))
    else perform (keras_saving_save_weights (name self) filepath
                    backbone_layer_ids).

Definition no_preprocessor_message : string :=
  "Cannot save `task` to preset: `Preprocessor` is not initialized.".

(** [Backbone.save_to_preset], a collaborator. *)
Definition backbone_save (b : option backbone_obj) (preset_dir : string)
  : M world unit :=
  match b with
  | Some b => perform (backbone_save_to_preset (backbone_name b) preset_dir)
  | None =>
      raise (AttributeError
               "'NoneType' object has no attribute 'save_to_preset'")
  end.

(** [Task.save_to_preset] *)
Definition save_to_preset (self : task_obj) (preset_dir : string)
  : M world unit :=
  match preprocessor self with
  | None => raise (ValueError no_preprocessor_message)
  | Some p =>
      perform (save_serialized_object (name self) preset_dir
                 TASK_CONFIG_FILE) ;;
      has ← lift (has_task_weights self);
      when has
        (save_task_weights self (os_path_join preset_dir TASK_WEIGHTS_FILE)) ;;
      Preprocessor.save_to_preset PREPROCESSOR_CONFIG_FILE p preset_dir ;;
      backbone_save (backbone self) preset_dir
  end.

(** [keras.layers.serialize], [keras.layers.deserialize] and the
    constructor, called as [cls] on [config] spread into keyword
    arguments: collaborators. *)
Variable serialize : pyvalue → pyvalue.
Variable deserialize : list (string * pyvalue) → result pyvalue.
Variable constructed : Type.
Variable construct : Cls → gmap string pyvalue → result constructed.

(** [Task.get_config] *)
Definition get_config (self : task_obj) : gmap string pyvalue :=
  <["backbone" := serialize (backbone_value (backbone self))]>
    (<["preprocessor" := serialize (preprocessor_value (preprocessor self))]>
       (<["name" := VStr (name self)]> ∅)).

(** [Task.from_config], acting on the dict it is given. *)
Definition from_config (cls : Cls) : M (gmap string pyvalue) constructed :=
  deserialize_entry deserialize "backbone" ;;
  deserialize_entry deserialize "preprocessor" ;;
  config ← get;
  lift (construct cls config).

(** [Task.layers]: [super_layers] is the new list [super().layers] gives
    and [preprocessor_id] the identity of [self.preprocessor], when there
    is one (a layer object is truthy and equal to itself only). *)
Definition layers (super_layers : list object_id)
    (preprocessor_id : option object_id) : result (list object_id) :=
  let layers := super_layers in
  match preprocessor_id with
  | Some p =>
      if bool_decide (p ∈ layers)
      then match list_remove p layers with
           | Some layers => Ok layers
           | None => Raise (ValueError "list.remove(x): x not in list")
           end
      else Ok layers
  | None => Ok layers
  end.

End WithEnvironment.
End Task.

(* ===================================================================== *)
(** * Specification-side definitions                                     *)
(* ===================================================================== *)

(** The calls of [save_to_preset] that come before the delegation. *)
Definition own_writes (TASK_CONFIG_FILE TASK_WEIGHTS_FILE : string)
    (self : task_obj) (b : backbone_obj)
    (preset_dir : string) (has : bool) : list io_call :=
  save_serialized_object (name self) preset_dir TASK_CONFIG_FILE
  :: (if has
      then [keras_saving_save_weights (name self)
              (os_path_join preset_dir TASK_WEIGHTS_FILE)
              (list_to_set (backbone_flatten_layers b))]
      else []).

(** The dicts merged by a run of [presets], in the order of insertion. *)
Definition merged (sources : list (gmap string preset_info))
  : gmap string preset_info :=
  foldl dict_update ∅ sources.

(** One turn of the loop over the subclasses. *)
Definition update_from (presets_of : Cls → option (gmap string preset_info))
    (acc : option (gmap string preset_info)) (subclass : Cls) :=
  presets ← acc;
  other ← presets_of subclass;
  Some (dict_update presets other).

(** The dict of the class attribute, when the attribute is set: what is
    merged between the presets of the class and the loop over the
    subclasses. *)
Definition companion_sources (env : environment)
    (attribute : Cls → option Cls) (cls : Cls)
  : list (gmap string preset_info) :=
  match attribute cls with
  | Some c => [companion_presets env c]
  | None => []
  end.

(** What the preset enumeration [presets] of a class evaluates to, for the
    class attribute [attribute] it reads: with [ps] the enumerations of
    the subclasses, in the order of [list_subclasses], the dicts merged
    are, in this order, the presets registered on the class, the presets
    of the class named by the attribute (when it is set) and [ps]; the
    result has the keys of all of them, binds a key as the last dict
    that has the key does, and so has the keys registered on the class
    and on each subclass. *)
Definition presets_contract (env : environment)
    (presets : nat → Cls → option (gmap string preset_info))
    (attribute : Cls → option Cls) (rank : Cls → nat) (cls : Cls) : Prop :=
  ∃ (ps : list (gmap string preset_info)) (result : gmap string preset_info),
    Forall2 (λ sub p, ∀ fuel, rank sub < fuel → presets fuel sub = Some p)
      (list_subclasses env cls) ps
    ∧ (∀ fuel, rank cls < fuel → presets fuel cls = Some result)
    ∧ let sources :=
        list_presets env cls :: (companion_sources env attribute cls ++ ps)%list in
      dom result = ⋃ (dom <$> sources)
      ∧ (∀ i m k v,
           sources !! i = Some m →
           m !! k = Some v →
           (∀ j m', i < j → sources !! j = Some m' → m' !! k = None) →
           result !! k = Some v)
      ∧ dom (list_presets env cls) ⊆ dom result
      ∧ (∀ sub, sub ∈ list_subclasses env cls →
                dom (list_presets env sub) ⊆ dom result).

(** "First insertion wins", as the specification words it: a key that
    is already in the dict is not overwritten, so a key registered on the
    class itself, which is inserted first, keeps the binding it has
    there. *)
Definition first_insertion_wins (env : environment)
    (presets : nat → Cls → option (gmap string preset_info)) (cls : Cls)
  : Prop :=
  ∀ fuel result k v,
    presets fuel cls = Some result →
    list_presets env cls !! k = Some v →
    result !! k = Some v.

(** What [from_preset] does on a class other than the base class, for a
    preset that declares the backbone class [family]; [load c] is the
    construction of class [c] by the loader and [load_call c] the call
    that asks for it. *)
Definition resolution_contract (env : environment) (preset : string)
    (family cls : Cls) (from_preset : M (list loader_call) instance)
    (load : Cls → result instance) (load_call : Cls → loader_call)
    (tr : list loader_call) : Prop :=
  let opened :=
    (tr ++ [get_preset_loader_call preset;
            check_backbone_class_call preset])%list in
  let matching :=
    filter (λ x, backbone_cls env x = Some family) (list_subclasses env cls) in
  (backbone_cls env cls = Some family →
   from_preset tr = (load cls, (opened ++ [load_call cls])%list))
  ∧ (backbone_cls env cls ≠ Some family →
     ∀ sub, matching = [sub] →
       from_preset tr
       = (load sub,
          (opened ++ [find_subclass_call preset cls family;
                      load_call sub])%list))
  ∧ (backbone_cls env cls ≠ Some family →
     matching = [] →
     from_preset tr
     = (Raise (UnsupportedPresetError preset family),
        (opened ++ [find_subclass_call preset cls family])%list)).

(** The collaborators answer each of the calls [cs], made in this order
    from the world [w], by returning. *)
Fixpoint all_return (w : world) (cs : list io_call) : Prop :=
  match cs with
  | [] => True
  | c :: cs' => answers w (calls w) c = None ∧ all_return (logged c w) cs'
  end.

(** The calls of [save_to_preset], from the first to the last, on a task
    with the backbone [b] and a preprocessor [p] that has the tokenizer
    [tok]. *)
Definition save_steps
    (TASK_CONFIG_FILE TASK_WEIGHTS_FILE PREPROCESSOR_CONFIG_FILE : string)
    (self : task_obj) (b : backbone_obj) (p : preprocessor_obj)
    (tok : string) (preset_dir : string) (has : bool) : list io_call :=
  (own_writes TASK_CONFIG_FILE TASK_WEIGHTS_FILE self b preset_dir has
   ++ [save_serialized_object (preprocessor_name p) preset_dir
         PREPROCESSOR_CONFIG_FILE;
       tokenizer_save_to_preset tok preset_dir;
       backbone_save_to_preset (backbone_name b) preset_dir])%list.

(* ===================================================================== *)
(** * Example objects                                                     *)
(* ===================================================================== *)

Definition example_vocabulary : gmap string Z :=
  <["<s>" := 0%Z]> (<["</s>" := 1%Z]> (<["hi" := 2%Z]> ∅)).

Definition vocabulary_without_start : gmap string Z :=
  <["</s>" := 0%Z]> (<["hi" := 1%Z]> ∅).

(** A classifier over a backbone with the variables 1 and 2: without
    a head it has no weights of its own; with the head variable 3 it has,
    although the head holds the same tensor as the backbone variable 1. *)
Definition example_backbone : backbone_obj :=
  {| backbone_name := "backbone"; backbone_weights := [1; 2];
     backbone_flatten_layers := [10; 11] |}.
Definition example_preprocessor : preprocessor_obj :=
  {| preprocessor_name := "preprocessor"; tokenizer := Some "tokenizer" |}.
Definition example_task (head : list object_id) : task_obj :=
  {| name := "classifier"; repr := "<Classifier name=classifier>";
     weights := ([1; 2] ++ head)%list;
     backbone := Some example_backbone;
     preprocessor := Some example_preprocessor |}.
Definition example_world : world :=
  {| store := <[1 := [7%Z]]> (<[2 := [8%Z]]> (<[3 := [7%Z]]> ∅));
     calls := [];
     answers := λ _ _, None |}.

(** A world in which nothing can be written into the directory "": the
    calls that write there raise. *)
Definition unwritable_world : world :=
  {| store := store example_world;
     calls := [];
     answers := λ _ c,
       match c with
       | save_serialized_object _ "" _ =>
           Some (OSError "No such file or directory")
       | _ => None
       end |}.

(** A serializer that wraps an object in a dict and leaves [None] as it
    is, and the deserializer that unwraps. *)
Definition example_serialize (v : pyvalue) : pyvalue :=
  match v with
  | VNone => VNone
  | _ => VDict [("config", v)]
  end.
Definition example_deserialize (d : list (string * pyvalue)) : result pyvalue :=
  match d with
  | [(_, v)] => Ok v
  | _ => Raise (ValueError "not a serialized object")
  end.
(** The same, refusing to give a dict for an object. *)
Definition example_deserialize_object (d : list (string * pyvalue))
  : result pyvalue :=
  match d with
  | [(_, VDict _)] => Raise (ValueError "not a serialized object")
  | [(_, v)] => Ok v
  | _ => Raise (ValueError "not a serialized object")
  end.
(** A constructor that keeps the keyword arguments it is given. *)
Definition example_construct (cls : Cls) (config : gmap string pyvalue)
  : result (Cls * gmap string pyvalue) :=
  Ok (cls, config).

(** Tasks that lack a part. *)
Definition task_without_backbone_object : task_obj :=
  {| name := "classifier"; repr := "<Classifier name=classifier>";
     weights := [3]; backbone := None;
     preprocessor := Some example_preprocessor |}.

Definition preprocessor_without_tokenizer : preprocessor_obj :=
  {| preprocessor_name := "preprocessor"; tokenizer := None |}.

Definition task_without_tokenizer : task_obj :=
  {| name := "classifier"; repr := "<Classifier name=classifier>";
     weights := [1; 2; 3]; backbone := Some example_backbone;
     preprocessor := Some preprocessor_without_tokenizer |}.

Definition task_without_preprocessor : task_obj :=
  {| name := "classifier"; repr := "<Classifier name=classifier>";
     weights := [1; 2]; backbone := Some example_backbone;
     preprocessor := None |}.

(** ** A small class hierarchy

    [Task] > [Classifier] > [BertClassifier], [DistilBertClassifier] and
    [Preprocessor] > [BertPreprocessor], [DistilBertPreprocessor], with
    the preset key "bert_base_en" registered on [BertClassifier] and on
    [BertBackbone]. *)
Definition example_loader : preset_loader :=
  {| check_backbone_class := Ok "DistilBertBackbone";
     weights_fit := λ _, true |}.

Definition example_env : environment :=
  {| backbone_cls := λ c,
       if decide (c = "BertClassifier") then Some "BertBackbone"
       else if decide (c = "DistilBertClassifier") then Some "DistilBertBackbone"
       else if decide (c = "BertPreprocessor") then Some "BertBackbone"
       else if decide (c = "DistilBertPreprocessor") then Some "DistilBertBackbone"
       else None;
     tokenizer_cls := λ c,
       if decide (c = "BertPreprocessor") then Some "BertTokenizer"
       else if decide (c = "DistilBertPreprocessor") then Some "DistilBertTokenizer"
       else None;
     list_presets := λ c,
       if decide (c = "BertClassifier")
       then <["bert_base_en" := "registered on BertClassifier"]>
              (<["bert_tiny_en_uncased_sst2" := "registered on BertClassifier"]> ∅)
       else ∅;
     list_subclasses := λ c,
       if decide (c = Task_class)
       then ["Classifier"; "BertClassifier"; "DistilBertClassifier"]
       else if decide (c = "Classifier")
       then ["BertClassifier"; "DistilBertClassifier"]
       else if decide (c = Preprocessor_class)
       then ["BertPreprocessor"; "DistilBertPreprocessor"]
       else [];
     companion_presets := λ c,
       if decide (c = "BertBackbone")
       then <["bert_base_en" := "registered on BertBackbone"]> ∅
       else if decide (c = "DistilBertBackbone")
       then <["distil_bert_base_en" := "registered on DistilBertBackbone"]> ∅
       else if decide (c = "BertTokenizer")
       then <["bert_base_en" := "registered on BertTokenizer"]> ∅
       else ∅;
     get_preset_loader := λ preset,
       if decide (preset = "hf://distilbert/distilbert-base-uncased")
       then Ok example_loader
       else Raise (ValueError "unknown preset") |}.


Definition example_rank (c : Cls) : nat :=
  if decide (c = Task_class) then 2
  else if decide (c = "Classifier") then 1
  else if decide (c = Preprocessor_class) then 1
  else 0.

(* ===================================================================== *)
(** * Properties of the tokenizer configuration                           *)
(* ===================================================================== *)

Section TokenizerFacts.

Implicit Types (V : gmap string Z) (t : mistral_tokenizer) (token : string).

Lemma in_vocabulary V token :
  token ∈ map fst (map_to_list V) ↔ is_Some (V !! token).
Proof.
  split.
  - intros Hin. apply list_elem_of_fmap in Hin as [[k i] [-> Hki]].
    apply elem_of_map_to_list in Hki. simpl. eauto.
  - intros [i Hi]. apply list_elem_of_fmap. exists (token, i).
    split; [done |]. by apply elem_of_map_to_list.
Qed.

Lemma in_vocabulary_true V token i :
  V !! token = Some i → bool_decide (token ∈ map fst (map_to_list V)) = true.
Proof. intros Hi. apply bool_decide_eq_true, in_vocabulary. eauto. Qed.

Lemma in_vocabulary_false V token :
  V !! token = None → bool_decide (token ∈ map fst (map_to_list V)) = false.
Proof.
  intros Hn. apply bool_decide_eq_false. rewrite in_vocabulary, Hn.
  by intros [? ?].
Qed.

End TokenizerFacts.

(** Running a method: unfold the sequencing and the state primitives and
    reduce the record updates, leaving the tests of the code in place. *)
Ltac run_method :=
  repeat (progress
    (unfold mbind, M_bind, mret, M_ret, modify, get, raise, lift, when,
       call;
     cbn [for_each fst snd negb store calls
          vocabulary start_token end_token start_token_id end_token_id
          with_vocabulary with_start_token_id with_end_token_id with_tokens])).

(** C4. Configuring a tokenizer with a vocabulary that holds both "<s>"
    and "</s>" succeeds; the vocabulary is installed and afterwards
    [start_token_id] and [end_token_id] are the ids the vocabulary gives
    to "<s>" and to "</s>". *)
Theorem set_proto_resolves_ids (V : gmap string Z) (t : mistral_tokenizer) (s e : Z) :
  MistralTokenizer.special_tokens_set t →
  V !! "<s>" = Some s →
  V !! "</s>" = Some e →
  MistralTokenizer.set_proto (Some V) t
  = (Ok tt, {| vocabulary := Some V;
               start_token := "<s>"; end_token := "</s>";
               start_token_id := PyInt s; end_token_id := PyInt e |}).
Proof.
  intros [Hs He] HVs HVe. destruct t as [v st et sid eid]; simpl in *; subst.
  unfold MistralTokenizer.set_proto, SentencePieceTokenizer.set_proto,
    SentencePieceTokenizer.get_vocabulary, SentencePieceTokenizer.token_to_id.
  run_method.
  rewrite (in_vocabulary_true V "<s>" s HVs); run_method.
  rewrite (in_vocabulary_true V "</s>" e HVe); run_method.
  rewrite HVs; run_method. rewrite HVe. reflexivity.
Qed.

(** The scenario of the specification: the vocabulary
    {"<s>":0, "</s>":1, "hi":2} configures a new tokenizer with
    [start_token_id = 0] and [end_token_id = 1]. *)
Lemma set_proto_resolves_ids_scenario :
  MistralTokenizer.special_tokens_set
    (with_tokens "<s>" "</s>" MistralTokenizer.new_object)
  ∧ example_vocabulary !! "<s>" = Some 0%Z
  ∧ example_vocabulary !! "</s>" = Some 1%Z
  ∧ MistralTokenizer.set_proto (Some example_vocabulary)
      (with_tokens "<s>" "</s>" MistralTokenizer.new_object)
    = (Ok tt, {| vocabulary := Some example_vocabulary;
                 start_token := "<s>"; end_token := "</s>";
                 start_token_id := PyInt 0; end_token_id := PyInt 1 |}).
Proof.
  split; [split; reflexivity |].
  split; [reflexivity |]. split; [reflexivity |].
  apply (set_proto_resolves_ids example_vocabulary
           (with_tokens "<s>" "</s>" MistralTokenizer.new_object) 0 1).
  - split; reflexivity.
  - reflexivity.
  - reflexivity.
Defined.

(** C5. Configuring a tokenizer with a vocabulary that lacks "<s>" or
    "</s>" raises the [ValueError] whose message names a missing token
    (the first of "<s>", "</s>" that is absent) and the two ways out
    (provide the token in the vocabulary, or use a pretrained vocabulary
    name); neither [start_token_id] nor [end_token_id] is assigned: both
    hold what they held before the call. *)
Theorem set_proto_missing_token (V : gmap string Z) (t : mistral_tokenizer) :
  MistralTokenizer.special_tokens_set t →
  V !! "<s>" = None ∨ V !! "</s>" = None →
  ∃ token t',
    MistralTokenizer.set_proto (Some V) t
    = (Raise (ValueError (MistralTokenizer.missing_token_message token)), t')
    ∧ token = match V !! "<s>" with Some _ => "</s>" | None => "<s>" end
    ∧ V !! token = None
    ∧ start_token_id t' = start_token_id t
    ∧ end_token_id t' = end_token_id t.
Proof.
  intros [Hs He] Hmiss. destruct t as [v st et sid eid]; simpl in *; subst.
  unfold MistralTokenizer.set_proto, SentencePieceTokenizer.set_proto,
    SentencePieceTokenizer.get_vocabulary.
  run_method.
  destruct (V !! "<s>") as [i |] eqn:HVs.
  - destruct Hmiss as [? | HVe]; [discriminate |].
    rewrite (in_vocabulary_true V "<s>" i HVs); run_method.
    rewrite (in_vocabulary_false V "</s>" HVe).
    eexists _, _. repeat split; done.
  - rewrite (in_vocabulary_false V "<s>" HVs).
    eexists _, _. repeat split; done.
Qed.

(** The scenario of the specification: {"</s>":0, "hi":1} is refused, the
    message mentions "<s>", and a tokenizer under construction is left
    without [start_token_id] and [end_token_id]. *)
Lemma set_proto_missing_token_scenario :
  ∃ token t',
    MistralTokenizer.set_proto (Some vocabulary_without_start)
      (with_tokens "<s>" "</s>" MistralTokenizer.new_object)
    = (Raise (ValueError (MistralTokenizer.missing_token_message token)), t')
    ∧ token = "<s>"
    ∧ vocabulary_without_start !! token = None
    ∧ start_token_id t' = Unset
    ∧ end_token_id t' = Unset.
Proof.
  apply (set_proto_missing_token vocabulary_without_start
           (with_tokens "<s>" "</s>" MistralTokenizer.new_object)).
  - split; reflexivity.
  - left. reflexivity.
Defined.

(** Constructing a tokenizer runs the same configuration. *)
Example init_with_example_vocabulary :
  MistralTokenizer.__init__ (Some example_vocabulary)
    MistralTokenizer.new_object
  = (Ok tt, {| vocabulary := Some example_vocabulary;
               start_token := "<s>"; end_token := "</s>";
               start_token_id := PyInt 0; end_token_id := PyInt 1 |}).
Proof. vm_compute. reflexivity. Qed.

Example init_without_start_token :
  MistralTokenizer.__init__ (Some vocabulary_without_start)
    MistralTokenizer.new_object
  = (Raise (ValueError (MistralTokenizer.missing_token_message "<s>")),
     {| vocabulary := Some vocabulary_without_start;
        start_token := "<s>"; end_token := "</s>";
        start_token_id := Unset; end_token_id := Unset |}).
Proof. vm_compute. reflexivity. Qed.

(** C6. Whatever the state of the tokenizer, configuring it with [None]
    succeeds, clears the vocabulary and sets both [start_token_id] and
    [end_token_id] to [None]. *)
Theorem set_proto_none_resets (t : mistral_tokenizer) :
  MistralTokenizer.set_proto None t
  = (Ok tt, {| vocabulary := None;
               start_token := start_token t; end_token := end_token t;
               start_token_id := PyNone; end_token_id := PyNone |}).
Proof. reflexivity. Qed.

(* ===================================================================== *)
(** * Properties of the task weights                                      *)
(* ===================================================================== *)

Section StringFacts.

Lemma list_ascii_of_string_app (a b : string) :
  list_ascii_of_string (a +:+ b)
  = (list_ascii_of_string a ++ list_ascii_of_string b)%list.
Proof. induction a as [| c a IH]; simpl; [done | by rewrite IH]. Qed.

Lemma endswith_app (a b suffix : string) :
  endswith b suffix = true → endswith (a +:+ b) suffix = true.
Proof.
  unfold endswith. rewrite !bool_decide_eq_true, list_ascii_of_string_app.
  apply suffix_app_r.
Qed.

(** The joined path ends as its last component does. *)
Lemma endswith_os_path_join (a b suffix : string) :
  endswith b suffix = true → endswith (os_path_join a b) suffix = true.
Proof.
  intros Hb. unfold os_path_join.
  destruct (String.prefix "/" b); [done |].
  destruct (String.eqb a "" || endswith a "/").
  - by apply endswith_app.
  - by apply endswith_app, endswith_app.
Qed.

End StringFacts.

Section WeightFacts.

Implicit Types (self : task_obj) (b : backbone_obj) (w : world).

Lemma has_task_weights_backbone self b :
  backbone self = Some b →
  Task.has_task_weights self
  = Ok (negb (bool_decide
                (list_to_set (weights self)
                   ⊆@{gset object_id} list_to_set (backbone_weights b)))).
Proof. intros Hb. unfold Task.has_task_weights. by rewrite Hb. Qed.

Lemma has_task_weights_Ok self r :
  Task.has_task_weights self = Ok r → ∃ b, backbone self = Some b.
Proof.
  unfold Task.has_task_weights. destruct (backbone self); [eauto | done].
Qed.

End WeightFacts.

(** C7. For a task with a backbone, [has_task_weights] returns, and what
    it returns is [True] exactly when the set of the identities of the
    task's weights is not included in the set of the identities of the
    backbone's weights; only identities are looked at, never the tensors
    in the store. It is [False] when the task's weights are the
    backbone's, and [True] when the weights of a head are added of which
    one is not a backbone weight. *)
Theorem has_task_weights_identity (self : task_obj) (b : backbone_obj) :
  backbone self = Some b →
  (∃ r, Task.has_task_weights self = Ok r
        ∧ (r = true ↔
           ¬ (list_to_set (weights self)
                ⊆@{gset object_id} list_to_set (backbone_weights b))))
  ∧ (weights self = backbone_weights b →
     Task.has_task_weights self = Ok false)
  ∧ (∀ head x,
       weights self = (backbone_weights b ++ head)%list →
       x ∈ head → x ∉ backbone_weights b →
       Task.has_task_weights self = Ok true).
Proof.
  intros Hb. rewrite (has_task_weights_backbone self b Hb).
  split; [| split].
  - eexists. split; [reflexivity |].
    rewrite negb_true_iff, bool_decide_eq_false. reflexivity.
  - intros ->. by rewrite bool_decide_eq_true_2.
  - intros head x -> Hx Hnx. f_equal.
    rewrite negb_true_iff, bool_decide_eq_false.
    intros Hsub. apply Hnx.
    apply (elem_of_list_to_set (C := gset object_id)), Hsub,
      elem_of_list_to_set, elem_of_app. by right.
Qed.

Lemma has_task_weights_identity_example :
  store example_world !! 3 = store example_world !! 1
  ∧ Task.has_task_weights (example_task []) = Ok false
  ∧ Task.has_task_weights (example_task [3]) = Ok true.
Proof.
  split; [reflexivity |]. split.
  - apply (has_task_weights_identity (example_task []) example_backbone);
      reflexivity.
  - apply (has_task_weights_identity (example_task [3]) example_backbone
             eq_refl) with (head := [3]) (x := 3).
    + reflexivity.
    + apply list_elem_of_here.
    + intros Hin. apply list_elem_of_In in Hin. simpl in Hin.
      repeat destruct Hin as [Hin | Hin]; try discriminate. exact Hin.
Defined.

(** C8. [save_task_weights] raises a [ValueError] and calls no collaborator
    (the world is the one before the call, so nothing is written)
    - when the path does not end in ".weights.h5": the error is the one
      of the suffix, whatever the task;
    - when the task has no weights of its own: the error says that there
      is nothing to save when the path has the suffix, and is the one of
      the suffix otherwise, since the suffix is tested first. *)
Theorem save_task_weights_preconditions
    (self : task_obj) (filepath : string) (w : world) :
  (endswith filepath ".weights.h5" = false →
   Task.save_task_weights self filepath w
   = (Raise (ValueError (Task.save_suffix_message filepath)), w))
  ∧ (Task.has_task_weights self = Ok false →
     ∃ msg,
       Task.save_task_weights self filepath w = (Raise (ValueError msg), w)
       ∧ (endswith filepath ".weights.h5" = true →
          msg = Task.nothing_to_save_message self)).
Proof.
  unfold Task.save_task_weights. split.
  - intros ->. reflexivity.
  - intros Hhas. destruct (has_task_weights_Ok self false Hhas) as [b Hb].
    destruct (endswith filepath ".weights.h5") eqn:Hsuffix; simpl.
    + unfold Task.backbone_layer_ids. rewrite Hb. run_method.
      rewrite Hhas. simpl. eexists. split; [reflexivity | done].
    + eexists. split; [reflexivity | done].
Qed.

(** The scenario of the specification: saving to "weights.bin" is refused
    before any write; and a task without a head has nothing to save. *)
Lemma save_task_weights_preconditions_scenario :
  Task.save_task_weights (example_task [3]) "weights.bin" example_world
  = (Raise (ValueError (Task.save_suffix_message "weights.bin")),
     example_world)
  ∧ Task.save_task_weights (example_task []) "head.weights.h5" example_world
    = (Raise (ValueError (Task.nothing_to_save_message (example_task []))),
       example_world).
Proof.
  split.
  - apply (save_task_weights_preconditions
             (example_task [3]) "weights.bin" example_world).
    vm_compute. reflexivity.
  - destruct (proj2 (save_task_weights_preconditions
                       (example_task []) "head.weights.h5" example_world)
                eq_refl) as [msg [Hrun Hmsg]].
    rewrite Hrun, Hmsg; [reflexivity |]. vm_compute. reflexivity.
Defined.

(** C10. [load_task_weights] on a path that does not end in ".weights.h5"
    raises a [ValueError] before it reads anything: no collaborator is
    called and the tensor of every variable, of the task and of its
    backbone, is what it was. *)
Theorem load_task_weights_suffix
    (read_weights_file :
       string → gset object_id → gmap object_id tensor → gmap object_id tensor)
    (self : task_obj) (filepath : string) (w : world) :
  endswith filepath ".weights.h5" = false →
  Task.load_task_weights read_weights_file self filepath w
  = (Raise (ValueError Task.load_suffix_message), w).
Proof. intros Hsuffix. unfold Task.load_task_weights. by rewrite Hsuffix. Qed.

Lemma load_task_weights_suffix_example :
  endswith "weights.bin" ".weights.h5" = false
  ∧ Task.load_task_weights (λ _ _ _, ∅) (example_task [3]) "weights.bin"
      example_world
    = (Raise (ValueError Task.load_suffix_message), example_world).
Proof.
  split; [vm_compute; reflexivity |].
  apply (load_task_weights_suffix (λ _ _ _, ∅) (example_task [3])
           "weights.bin" example_world).
  vm_compute. reflexivity.
Defined.

(* ===================================================================== *)
(** * Saving a task to a preset directory                                 *)
(* ===================================================================== *)

Section CollaboratorFacts.

Implicit Types (w : world) (c : io_call) (cs done : list io_call).

Lemma perform_returns w c :
  answers w (calls w) c = None → perform c w = (Ok tt, logged c w).
Proof. intros Hc. unfold perform. by rewrite Hc. Qed.

Lemma perform_raises w c e :
  answers w (calls w) c = Some e → perform c w = (Raise e, logged c w).
Proof. intros Hc. unfold perform. by rewrite Hc. Qed.

(** The call is made, whether it returns or raises. *)
Lemma perform_world w c : snd (perform c w) = logged c w.
Proof. unfold perform. by destruct (answers w (calls w) c). Qed.

Lemma for_each_cons c cs w :
  for_each (c :: cs) perform w = (perform c ;; for_each cs perform) w.
Proof. reflexivity. Qed.

Lemma for_each_app cs1 cs2 w :
  for_each (cs1 ++ cs2)%list perform w
  = (for_each cs1 perform ;; for_each cs2 perform) w.
Proof.
  revert w. induction cs1 as [| c cs1 IH]; intros w; [reflexivity |].
  simpl. unfold mbind, M_bind in *.
  destruct (perform c w) as [[[] | e] w1]; [apply IH | reflexivity].
Qed.

(** The calls are made in order, up to the first that raises. *)
Lemma for_each_calls cs w :
  ∃ done,
    done `prefix_of` cs
    ∧ calls (snd (for_each cs perform w)) = (calls w ++ done)%list
    ∧ (fst (for_each cs perform w) = Ok tt → done = cs).
Proof.
  revert w. induction cs as [| c cs IH]; intros w.
  - exists []. split; [done |]. split; [| done]. simpl. by rewrite app_nil_r.
  - rewrite for_each_cons. unfold mbind, M_bind.
    pose proof (perform_world w c) as Hw.
    destruct (perform c w) as [[[] | e] w1]; simpl in Hw; subst w1.
    + destruct (IH (logged c w)) as (done & Hpre & Hcalls & Hall).
      exists (c :: done). split; [by apply prefix_cons |].
      split; [| by intros ->%Hall].
      rewrite Hcalls. simpl. by rewrite <- app_assoc.
    + exists [c]. split; [apply (prefix_app_r [c] [c] cs); done |].
      split; [done | done].
Qed.

Lemma for_each_all_return cs w :
  all_return w cs →
  fst (for_each cs perform w) = Ok tt
  ∧ calls (snd (for_each cs perform w)) = (calls w ++ cs)%list.
Proof.
  revert w. induction cs as [| c cs IH]; intros w.
  - intros _. split; [done |]. simpl. by rewrite app_nil_r.
  - intros [Hc Hcs]. rewrite for_each_cons. unfold mbind, M_bind.
    rewrite (perform_returns w c Hc).
    destruct (IH (logged c w) Hcs) as [Hok Hcalls].
    split; [done |]. rewrite Hcalls. simpl. by rewrite <- app_assoc.
Qed.


End CollaboratorFacts.

Section SaveToPreset.

Variables TASK_CONFIG_FILE TASK_WEIGHTS_FILE PREPROCESSOR_CONFIG_FILE : string.

Let save_to_preset :=
  Task.save_to_preset TASK_CONFIG_FILE TASK_WEIGHTS_FILE
    PREPROCESSOR_CONFIG_FILE.

(** With a preprocessor and a backbone, [save_to_preset] is: the writes
    of the task, then the preprocessor, then the backbone. *)
Lemma save_to_preset_delegates self b p preset_dir has w :
  endswith TASK_WEIGHTS_FILE ".weights.h5" = true →
  preprocessor self = Some p →
  backbone self = Some b →
  Task.has_task_weights self = Ok has →
  save_to_preset self preset_dir w
  = (for_each (own_writes TASK_CONFIG_FILE TASK_WEIGHTS_FILE
                 self b preset_dir has) perform ;;
     Preprocessor.save_to_preset PREPROCESSOR_CONFIG_FILE p preset_dir ;;
     Task.backbone_save (Some b) preset_dir) w.
Proof.
  intros Hsuffix Hp Hb Hhas.
  unfold save_to_preset, Task.save_to_preset, own_writes,
    Task.save_task_weights, Task.backbone_layer_ids.
  rewrite Hp, Hb, (endswith_os_path_join _ _ _ Hsuffix), Hhas.
  unfold mbind, M_bind. rewrite for_each_cons. unfold mbind, M_bind.
  destruct (perform _ w) as [[[] | e] w1]; [| reflexivity].
  destruct has; run_method.
  - by destruct (perform _ w1) as [[[] | e] w2].
  - reflexivity.
Qed.

(** When the preprocessor has its tokenizer, it is a sequence of calls. *)
Lemma save_to_preset_steps self b p tok preset_dir has w :
  endswith TASK_WEIGHTS_FILE ".weights.h5" = true →
  preprocessor self = Some p →
  backbone self = Some b →
  Task.has_task_weights self = Ok has →
  tokenizer p = Some tok →
  save_to_preset self preset_dir w
  = for_each (save_steps TASK_CONFIG_FILE TASK_WEIGHTS_FILE
                PREPROCESSOR_CONFIG_FILE self b p tok preset_dir has)
      perform w.
Proof.
  intros Hsuffix Hp Hb Hhas Htok.
  rewrite (save_to_preset_delegates self b p preset_dir has w
             Hsuffix Hp Hb Hhas).
  unfold save_steps. rewrite for_each_app.
  unfold mbind, M_bind, Preprocessor.save_to_preset, Task.backbone_save.
  rewrite Htok.
  destruct (for_each _ perform w) as [[[] | e] w1]; [| reflexivity].
  simpl. unfold mbind, M_bind, mret, M_ret.
  destruct (perform _ w1) as [[[] | e] w2]; [| reflexivity].
  destruct (perform _ w2) as [[[] | e] w3]; [| reflexivity].
  by destruct (perform _ w3) as [[[] | e] w4].
Qed.

(** When the preprocessor has no tokenizer, the calls stop after the
    configuration of the preprocessor. *)
Lemma save_to_preset_bare self b p preset_dir has w :
  endswith TASK_WEIGHTS_FILE ".weights.h5" = true →
  preprocessor self = Some p →
  backbone self = Some b →
  Task.has_task_weights self = Ok has →
  tokenizer p = None →
  save_to_preset self preset_dir w
  = (for_each (own_writes TASK_CONFIG_FILE TASK_WEIGHTS_FILE
                 self b preset_dir has
               ++ [save_serialized_object (preprocessor_name p) preset_dir
                     PREPROCESSOR_CONFIG_FILE])%list perform ;;
     raise (AttributeError
              "'NoneType' object has no attribute 'save_to_preset'")) w.
Proof.
  intros Hsuffix Hp Hb Hhas Htok.
  rewrite (save_to_preset_delegates self b p preset_dir has w
             Hsuffix Hp Hb Hhas).
  unfold mbind, M_bind. rewrite for_each_app.
  unfold mbind, M_bind, Preprocessor.save_to_preset. rewrite Htok.
  destruct (for_each _ perform w) as [[[] | e] w1]; [| reflexivity].
  simpl. unfold mbind, M_bind, mret, M_ret, raise.
  by destruct (perform _ w1) as [[[] | e] w2].
Qed.

End SaveToPreset.

(** C9. [save_to_preset] on a task without preprocessor raises a
    [ValueError] and writes nothing. On a task with a preprocessor (and a
    backbone) it first writes the configuration of the task, then the
    task weights exactly when [has_task_weights] says that there are
    some, and then hands over to [save_to_preset] of the preprocessor and
    after it to [save_to_preset] of the backbone; each step is made only
    when the steps before it have returned, and an exception of a step
    comes out as it is. When the preprocessor has its tokenizer the calls
    are, in order: task configuration, task weights (if any),
    preprocessor configuration, tokenizer, backbone; the calls made are
    always a beginning of this list, and all of it, with a normal
    return, when every one of them returns. *)
Theorem save_to_preset_order
    (TASK_CONFIG_FILE TASK_WEIGHTS_FILE PREPROCESSOR_CONFIG_FILE : string)
    (self : task_obj) (preset_dir : string) (w : world) :
  let run :=
    Task.save_to_preset TASK_CONFIG_FILE TASK_WEIGHTS_FILE
      PREPROCESSOR_CONFIG_FILE self preset_dir w in
  (preprocessor self = None →
   run = (Raise (ValueError Task.no_preprocessor_message), w))
  ∧ (∀ p b has,
       endswith TASK_WEIGHTS_FILE ".weights.h5" = true →
       preprocessor self = Some p →
       backbone self = Some b →
       Task.has_task_weights self = Ok has →
       run
       = (for_each (own_writes TASK_CONFIG_FILE TASK_WEIGHTS_FILE
                      self b preset_dir has) perform ;;
          Preprocessor.save_to_preset PREPROCESSOR_CONFIG_FILE p preset_dir ;;
          Task.backbone_save (Some b) preset_dir) w
       ∧ ∀ tok,
           tokenizer p = Some tok →
           let steps :=
             save_steps TASK_CONFIG_FILE TASK_WEIGHTS_FILE
               PREPROCESSOR_CONFIG_FILE self b p tok preset_dir has in
           run = for_each steps perform w
           ∧ (∃ done,
                done `prefix_of` steps
                ∧ calls (snd run) = (calls w ++ done)%list
                ∧ (fst run = Ok tt → done = steps))
           ∧ (all_return w steps →
              fst run = Ok tt ∧ calls (snd run) = (calls w ++ steps)%list)).
Proof.
  cbv zeta. split.
  - intros Hp. unfold Task.save_to_preset. by rewrite Hp.
  - intros p b has Hsuffix Hp Hb Hhas.
    split; [by apply save_to_preset_delegates |].
    intros tok Htok.
    rewrite (save_to_preset_steps TASK_CONFIG_FILE TASK_WEIGHTS_FILE
               PREPROCESSOR_CONFIG_FILE self b p tok preset_dir has w
               Hsuffix Hp Hb Hhas Htok).
    split; [reflexivity |].
    split; [apply for_each_calls | apply for_each_all_return].
Qed.

(** A classifier with a head, and the same without, saved where every
    collaborator returns: the calls made. And the classifier saved into
    the directory "", where the first write raises. *)
Lemma save_to_preset_order_example :
  (fst (Task.save_to_preset "task.json" "task.weights.h5" "preprocessor.json"
          (example_task [3]) "dir" example_world) = Ok tt
   ∧ calls (snd (Task.save_to_preset "task.json" "task.weights.h5"
                   "preprocessor.json" (example_task [3]) "dir"
                   example_world))
     = [save_serialized_object "classifier" "dir" "task.json";
        keras_saving_save_weights "classifier"
          "dir/task.weights.h5" (list_to_set [10; 11]);
        save_serialized_object "preprocessor" "dir" "preprocessor.json";
        tokenizer_save_to_preset "tokenizer" "dir";
        backbone_save_to_preset "backbone" "dir"])
  ∧ (fst (Task.save_to_preset "task.json" "task.weights.h5"
            "preprocessor.json" (example_task []) "dir" example_world)
     = Ok tt
     ∧ calls (snd (Task.save_to_preset "task.json" "task.weights.h5"
                     "preprocessor.json" (example_task []) "dir"
                     example_world))
       = [save_serialized_object "classifier" "dir" "task.json";
          save_serialized_object "preprocessor" "dir" "preprocessor.json";
          tokenizer_save_to_preset "tokenizer" "dir";
          backbone_save_to_preset "backbone" "dir"])
  ∧ Task.save_to_preset "task.json" "task.weights.h5" "preprocessor.json"
      task_without_preprocessor "dir" example_world
    = (Raise (ValueError Task.no_preprocessor_message), example_world)
  ∧ Task.save_to_preset "task.json" "task.weights.h5" "preprocessor.json"
      (example_task [3]) "" unwritable_world
    = (Raise (OSError "No such file or directory"),
       logged (save_serialized_object "classifier" "" "task.json")
         unwritable_world).
Proof.
  pose proof (λ self dir w,
                proj2 (save_to_preset_order "task.json" "task.weights.h5"
                         "preprocessor.json" self dir w)
                  example_preprocessor example_backbone) as Horder.
  split; [| split; [| split]].
  - destruct (Horder (example_task [3]) "dir" example_world true
                eq_refl eq_refl eq_refl eq_refl) as [_ Hsteps].
    destruct (Hsteps "tokenizer" eq_refl) as (_ & _ & Hall).
    apply Hall. vm_compute. tauto.
  - destruct (Horder (example_task []) "dir" example_world false
                eq_refl eq_refl eq_refl eq_refl) as [_ Hsteps].
    destruct (Hsteps "tokenizer" eq_refl) as (_ & _ & Hall).
    apply Hall. vm_compute. tauto.
  - apply (save_to_preset_order "task.json" "task.weights.h5"
             "preprocessor.json"). reflexivity.
  - destruct (Horder (example_task [3]) "" unwritable_world true
                eq_refl eq_refl eq_refl eq_refl) as [_ Hsteps].
    destruct (Hsteps "tokenizer" eq_refl) as (-> & _ & _).
    reflexivity.
Defined.

(* ===================================================================== *)
(** * Properties of the preset enumeration                                *)
(* ===================================================================== *)

Section MergeFacts.

Implicit Types (acc p m : gmap string preset_info)
  (ps sources : list (gmap string preset_info)).

Lemma merged_cons acc ps : merged (acc :: ps) = foldl dict_update acc ps.
Proof.
  unfold merged. simpl. unfold dict_update at 2.
  by rewrite (right_id_L ∅ (∪)).
Qed.

Lemma dom_foldl_update ps acc :
  dom (foldl dict_update acc ps) = dom acc ∪ ⋃ (dom <$> ps).
Proof.
  revert acc. induction ps as [| p ps IH]; intros acc; simpl.
  - by rewrite (right_id_L ∅ (∪)).
  - rewrite IH. unfold dict_update.
    rewrite dom_union_L, (comm_L (∪) (dom p)). by rewrite (assoc_L (∪)).
Qed.

Lemma dom_merged sources : dom (merged sources) = ⋃ (dom <$> sources).
Proof.
  unfold merged. rewrite dom_foldl_update, dom_empty_L.
  by rewrite (left_id_L ∅ (∪)).
Qed.

(** The binding of a key is the one of the last dict that has it. *)
Lemma foldl_update_last ps acc i m k v :
  (acc :: ps) !! i = Some m →
  m !! k = Some v →
  (∀ j m', i < j → (acc :: ps) !! j = Some m' → m' !! k = None) →
  foldl dict_update acc ps !! k = Some v.
Proof.
  revert acc i m. induction ps as [| p ps IH]; intros acc i m Hi Hk Hlast; simpl.
  - destruct i as [| i]; simpl in Hi; [by simplify_eq | done].
  - destruct i as [| [| i]]; simpl in Hi.
    + simplify_eq.
      apply (IH (dict_update m p) 0 (dict_update m p)); [done | |].
      * unfold dict_update. rewrite lookup_union_r; [done |].
        apply (Hlast 1 p); [lia | done].
      * intros [| j] m' Hj Hm'; [lia |].
        apply (Hlast (S (S j)) m'); [lia | done].
    + simplify_eq.
      apply (IH (dict_update acc m) 0 (dict_update acc m)); [done | |].
      * unfold dict_update. by apply lookup_union_Some_l.
      * intros [| j] m' Hj Hm'; [lia |].
        apply (Hlast (S (S j)) m'); [lia | done].
    + apply (IH (dict_update acc p) (S i) m); [done | done |].
      intros [| j] m' Hj Hm'; [lia |].
      apply (Hlast (S (S j)) m'); [lia | done].
Qed.

Lemma merged_last sources i m k v :
  sources !! i = Some m →
  m !! k = Some v →
  (∀ j m', i < j → sources !! j = Some m' → m' !! k = None) →
  merged sources !! k = Some v.
Proof.
  destruct sources as [| acc ps]; [done |].
  rewrite merged_cons. apply foldl_update_last.
Qed.

End MergeFacts.

Section PresetFacts.

Variable env : environment.
Variable attribute : Cls → option Cls.

Implicit Types (cls sub : Cls) (fuel : nat)
  (acc r p : gmap string preset_info) (ps : list (gmap string preset_info)).

Lemma class_presets_S fuel cls :
  class_presets env attribute (S fuel) cls
  = foldl (update_from (class_presets env attribute fuel))
      (Some (foldl dict_update (list_presets env cls) (companion_sources env attribute cls)))
      (list_subclasses env cls).
Proof. unfold companion_sources. simpl. by destruct (attribute cls). Qed.

Lemma foldl_update_from_None presets_of subs :
  foldl (update_from presets_of) None subs = None.
Proof. induction subs; simpl; done. Qed.

Lemma foldl_update_from_Some presets_of subs ps acc :
  Forall2 (λ sub p, presets_of sub = Some p) subs ps →
  foldl (update_from presets_of) (Some acc) subs
  = Some (foldl dict_update acc ps).
Proof.
  intros Hall. revert acc.
  induction Hall as [| sub p subs ps Hp _ IH]; intros acc; simpl; [done |].
  rewrite Hp. simpl. apply IH.
Qed.

Lemma foldl_update_from_inv presets_of subs acc r :
  foldl (update_from presets_of) (Some acc) subs = Some r →
  ∃ ps, Forall2 (λ sub p, presets_of sub = Some p) subs ps.
Proof.
  revert acc. induction subs as [| sub subs IH]; intros acc; simpl.
  - exists []. constructor.
  - destruct (presets_of sub) as [p |] eqn:Hp; simpl.
    + intros Hr. destruct (IH _ Hr) as [ps Hps].
      exists (p :: ps). by constructor.
    + by rewrite foldl_update_from_None.
Qed.

(** More fuel does not change a result. *)
Lemma class_presets_mono fuel fuel' cls r :
  (fuel ≤ fuel')%nat →
  class_presets env attribute fuel cls = Some r →
  class_presets env attribute fuel' cls = Some r.
Proof.
  revert fuel' cls r. induction fuel as [| fuel IH]; intros fuel' cls r Hle.
  - done.
  - destruct fuel' as [| fuel']; [lia |].
    rewrite !class_presets_S. intros Hr.
    destruct (foldl_update_from_inv _ _ _ _ Hr) as [ps Hps].
    rewrite (foldl_update_from_Some _ _ ps) in Hr by done.
    rewrite (foldl_update_from_Some _ _ ps); [done |].
    eapply Forall2_impl; [exact Hps |]. simpl.
    intros sub p. apply IH. lia.
Qed.

Section Ranked.

(** Subclassing is well founded: a class ranks above the subclasses
    that [list_subclasses] gives for it. *)
Variable rank : Cls → nat.
Hypothesis rank_subclass :
  ∀ cls sub, sub ∈ list_subclasses env cls → rank sub < rank cls.

Lemma class_presets_total fuel cls :
  rank cls < fuel → is_Some (class_presets env attribute fuel cls).
Proof.
  revert cls. induction fuel as [| fuel IH]; intros cls Hlt; [lia |].
  rewrite class_presets_S.
  assert (∃ ps, Forall2 (λ sub p, class_presets env attribute fuel sub = Some p)
                  (list_subclasses env cls) ps) as [ps Hps].
  { pose proof (rank_subclass cls) as Hsub.
    induction (list_subclasses env cls) as [| sub subs IHsubs].
    - exists []. constructor.
    - destruct IHsubs as [ps Hps].
      { intros s Hs. apply Hsub. by apply list_elem_of_further. }
      destruct (IH sub) as [p Hp].
      { specialize (Hsub sub (list_elem_of_here _ _)). lia. }
      exists (p :: ps). by constructor. }
  rewrite (foldl_update_from_Some _ _ ps _ Hps). eauto.
Qed.

Lemma subclass_presets cls subs :
  (∀ sub, sub ∈ subs → rank sub < rank cls) →
  ∃ ps, Forall2 (λ sub p,
                   ∀ fuel, rank sub < fuel →
                           class_presets env attribute fuel sub = Some p)
          subs ps.
Proof.
  induction subs as [| sub subs IH]; intros Hsub.
  - exists []. constructor.
  - destruct IH as [ps Hps].
    { intros s Hs. apply Hsub. by apply list_elem_of_further. }
    destruct (class_presets_total (S (rank sub)) sub) as [p Hp]; [lia |].
    exists (p :: ps). constructor; [| done].
    intros fuel Hfuel. apply (class_presets_mono (S (rank sub))); [lia | done].
Qed.

(** What a run of [presets] merges, and in which order. *)
Lemma class_presets_sources cls :
  ∃ ps,
    Forall2 (λ sub p,
               ∀ fuel, rank sub < fuel →
                       class_presets env attribute fuel sub = Some p)
      (list_subclasses env cls) ps
    ∧ ∀ fuel, rank cls < fuel →
        class_presets env attribute fuel cls
        = Some (merged (list_presets env cls :: companion_sources env attribute cls ++ ps)).
Proof.
  destruct (subclass_presets cls (list_subclasses env cls)
              (rank_subclass cls)) as [ps Hps].
  exists ps. split; [exact Hps |].
  intros fuel Hfuel. destruct fuel as [| fuel]; [lia |].
  rewrite class_presets_S, (foldl_update_from_Some _ _ ps).
  - by rewrite merged_cons, foldl_app.
  - clear -Hps Hfuel rank_subclass.
    pose proof (rank_subclass cls) as Hsub.
    induction Hps as [| sub p subs ps Hp _ IH]; constructor.
    + apply Hp. specialize (Hsub sub (list_elem_of_here _ _)). lia.
    + apply IH. intros s Hs. apply Hsub. by apply list_elem_of_further.
Qed.

End Ranked.

End PresetFacts.

Lemma class_presets_contract (env : environment)
    (attribute : Cls → option Cls) (rank : Cls → nat) (cls : Cls) :
  (∀ cls sub, sub ∈ list_subclasses env cls → rank sub < rank cls) →
  presets_contract env (class_presets env attribute) attribute rank cls.
Proof.
  intros Hrank.
  destruct (class_presets_sources env attribute rank Hrank cls)
    as [ps [Hps Hrun]].
  exists ps, (merged (list_presets env cls
                      :: companion_sources env attribute cls ++ ps)).
  split; [exact Hps |]. split; [exact Hrun |]. cbv zeta.
  split; [apply dom_merged |]. split; [apply merged_last |].
  rewrite dom_merged. split.
  - intros k Hk. rewrite fmap_cons, union_list_cons. apply elem_of_union.
    by left.
  - intros sub Hsub k Hk.
    apply list_elem_of_lookup in Hsub as [i Hi].
    destruct (Forall2_lookup_l _ _ _ _ _ Hps Hi) as [p [Hp Hsubp]].
    destruct (class_presets_sources env attribute rank Hrank sub)
      as [qs [_ Hsubrun]].
    specialize (Hsubp (S (rank sub)) (Nat.lt_succ_diag_r _)).
    rewrite (Hsubrun (S (rank sub)) (Nat.lt_succ_diag_r _)) in Hsubp.
    apply elem_of_union_list. exists (dom p). split.
    + apply list_elem_of_fmap. exists p. split; [done |].
      apply list_elem_of_further, elem_of_app. right.
      apply list_elem_of_lookup. eauto.
    + injection Hsubp as <-. rewrite dom_merged, fmap_cons, union_list_cons.
      apply elem_of_union. by left.
Qed.

(** C2 (as the code has it). When subclassing is well founded, the preset
    enumeration of every class, for tasks and for preprocessors, returns
    (with enough fuel, and the same dict with more), and its result is
    the union of the presets registered on the class, the presets of its
    backbone class (tokenizer class for a preprocessor) when set, and the
    enumerations of its subclasses, in this order, where a key bound more
    than once keeps its last binding ([dict.update] overwrites); the keys
    of the result include the keys registered on the class and on every
    subclass. *)
Theorem presets_union_last_wins (env : environment) (rank : Cls → nat)
    (cls : Cls) :
  (∀ cls sub, sub ∈ list_subclasses env cls → rank sub < rank cls) →
  presets_contract env (Task.presets env) (backbone_cls env) rank cls
  ∧ presets_contract env (Preprocessor.presets env) (tokenizer_cls env)
      rank cls.
Proof.
  intros Hrank. split; by apply class_presets_contract.
Qed.

Lemma example_rank_subclass cls sub :
  sub ∈ list_subclasses example_env cls → example_rank sub < example_rank cls.
Proof.
  simpl. repeat case_decide; subst; intros Hin;
    repeat (apply elem_of_cons in Hin as [-> | Hin]; [vm_compute; lia |]);
    by apply not_elem_of_nil in Hin.
Qed.

Lemma presets_union_last_wins_example :
  presets_contract example_env (Task.presets example_env)
    (backbone_cls example_env) example_rank "Classifier"
  ∧ presets_contract example_env (Preprocessor.presets example_env)
      (tokenizer_cls example_env) example_rank "Classifier".
Proof.
  apply (presets_union_last_wins example_env example_rank "Classifier").
  exact example_rank_subclass.
Defined.

(** The enumeration on [Classifier]: the keys of both subclasses and of
    their backbones. *)
Example presets_of_Classifier :
  dom <$> Task.presets example_env 2 "Classifier"
  = Some (list_to_set ["bert_base_en"; "bert_tiny_en_uncased_sst2";
                       "distil_bert_base_en"]).
Proof. vm_compute. reflexivity. Qed.

(** The enumeration grows towards the base class, not towards the
    subclass: [BertClassifier] does not enumerate the DistilBERT preset
    that [Classifier] enumerates. *)
Example presets_of_BertClassifier :
  dom <$> Task.presets example_env 1 "BertClassifier"
  = Some (list_to_set ["bert_base_en"; "bert_tiny_en_uncased_sst2"]).
Proof. vm_compute. reflexivity. Qed.

(** C2 (as stated) fails: "bert_base_en" is registered on [BertClassifier]
    and on its backbone class; the enumeration binds it as the backbone
    class does, which is inserted second. *)
Lemma presets_first_insertion_overwritten :
  ¬ first_insertion_wins example_env (Task.presets example_env)
      "BertClassifier".
Proof.
  intros Hfirst.
  assert (∃ result,
            Task.presets example_env 1 "BertClassifier" = Some result
            ∧ result !! "bert_base_en" = Some "registered on BertBackbone")
    as [result [Hrun Hk]].
  { eexists. split; [reflexivity |]. vm_compute. reflexivity. }
  specialize (Hfirst 1 result "bert_base_en" "registered on BertClassifier"
                Hrun eq_refl).
  rewrite Hk in Hfirst. discriminate.
Qed.

(* ===================================================================== *)
(** * Properties of [from_preset]                                         *)
(* ===================================================================== *)

(** C3. [from_preset] called on [Task] itself, and on [Preprocessor]
    itself, raises the [ValueError] that tells the caller to call a
    particular subclass, whatever the preset and the arguments; no call
    to the loader has been made at that point. *)
Theorem from_preset_on_base_class (env : environment) (preset : string)
    (load_weights : bool) (args : kwargs) (tr : list loader_call) :
  Task.from_preset env Task_class preset load_weights args tr
  = (Raise (ValueError Task.direct_call_message), tr)
  ∧ Preprocessor.from_preset env Preprocessor_class preset args tr
    = (Raise (ValueError Preprocessor.direct_call_message), tr).
Proof. split; reflexivity. Qed.

Lemma load_task_type loader cls load_weights args i :
  load_task loader cls load_weights args = Ok i → type_of i = cls.
Proof.
  unfold load_task.
  destruct (load_weights && negb (weights_fit loader cls)); [done |].
  by intros [= <-].
Qed.

Lemma load_preprocessor_type loader cls args i :
  load_preprocessor loader cls args = Ok i → type_of i = cls.
Proof. unfold load_preprocessor. by intros [= <-]. Qed.

Ltac run_from_preset Hloader Hfamily :=
  rewrite bool_decide_eq_false_2 by done;
  run_method; rewrite Hloader; run_method; rewrite Hfamily; run_method.

(** C1. Let the preset have a loader whose configuration declares the
    backbone class [family], and let [cls] be a class other than the base
    class ([Task], [Preprocessor]). Then [from_preset]
    - when [cls.backbone_cls] is [family], has the loader construct [cls]
      and makes no subclass search;
    - otherwise, when exactly one class of [list_subclasses(cls)] has
      [family] as its backbone class, has the loader construct that class;
    - otherwise, when no class of [list_subclasses(cls)] has, raises
      [UnsupportedPresetError];
    and what the loader constructs for a class is an instance of it. *)
Theorem from_preset_resolves_class (env : environment) (preset : string)
    (loader : preset_loader) (family cls : Cls) (args : kwargs)
    (tr : list loader_call) :
  get_preset_loader env preset = Ok loader →
  check_backbone_class loader = Ok family →
  (cls ≠ Task_class →
   ∀ load_weights,
     resolution_contract env preset family cls
       (Task.from_preset env cls preset load_weights args)
       (λ c, load_task loader c load_weights args)
       (λ c, load_task_call preset c load_weights args) tr
     ∧ ∀ c i, load_task loader c load_weights args = Ok i → type_of i = c)
  ∧ (cls ≠ Preprocessor_class →
     resolution_contract env preset family cls
       (Preprocessor.from_preset env cls preset args)
       (λ c, load_preprocessor loader c args)
       (λ c, load_preprocessor_call preset c args) tr
     ∧ ∀ c i, load_preprocessor loader c args = Ok i → type_of i = c).
Proof.
  intros Hloader Hfamily. split.
  - intros Hcls load_weights.
    split; [| intros c i; apply load_task_type].
    unfold resolution_contract, Task.from_preset. repeat split.
    + intros Hsame. run_from_preset Hloader Hfamily.
      rewrite bool_decide_eq_false_2 by (by intros ?).
      run_method. by rewrite <- !app_assoc.
    + intros Hother sub Hone. run_from_preset Hloader Hfamily.
      rewrite bool_decide_eq_true_2 by done.
      unfold find_subclass. rewrite Hone. run_method.
      by rewrite <- !app_assoc.
    + intros Hother Hnone. run_from_preset Hloader Hfamily.
      rewrite bool_decide_eq_true_2 by done.
      unfold find_subclass. rewrite Hnone. run_method.
      by rewrite <- !app_assoc.
  - intros Hcls.
    split; [| intros c i; apply load_preprocessor_type].
    unfold resolution_contract, Preprocessor.from_preset. repeat split.
    + intros Hsame. run_from_preset Hloader Hfamily.
      rewrite bool_decide_eq_false_2 by (by intros ?).
      run_method. by rewrite <- !app_assoc.
    + intros Hother sub Hone. run_from_preset Hloader Hfamily.
      rewrite bool_decide_eq_true_2 by done.
      unfold find_subclass. rewrite Hone. run_method.
      by rewrite <- !app_assoc.
    + intros Hother Hnone. run_from_preset Hloader Hfamily.
      rewrite bool_decide_eq_true_2 by done.
      unfold find_subclass. rewrite Hnone. run_method.
      by rewrite <- !app_assoc.
Qed.

(** The detection of the class on the small hierarchy, for the preset
    "hf://distilbert/distilbert-base-uncased" that declares
    [DistilBertBackbone]: [Classifier] resolves to [DistilBertClassifier],
    [DistilBertClassifier] to itself without a search, and
    [BertClassifier], which has no subclass, to an error. *)
Lemma from_preset_resolves_class_example :
  Task.from_preset example_env "Classifier"
    "hf://distilbert/distilbert-base-uncased" false [("num_classes", "2")] []
  = (Ok {| type_of := "DistilBertClassifier";
           init_kwargs := [("num_classes", "2")];
           weights_loaded := false |},
     [get_preset_loader_call "hf://distilbert/distilbert-base-uncased";
      check_backbone_class_call "hf://distilbert/distilbert-base-uncased";
      find_subclass_call "hf://distilbert/distilbert-base-uncased"
        "Classifier" "DistilBertBackbone";
      load_task_call "hf://distilbert/distilbert-base-uncased"
        "DistilBertClassifier" false [("num_classes", "2")]])
  ∧ Task.from_preset example_env "DistilBertClassifier"
      "hf://distilbert/distilbert-base-uncased" true [("num_classes", "2")] []
    = (Ok {| type_of := "DistilBertClassifier";
             init_kwargs := [("num_classes", "2")];
             weights_loaded := true |},
       [get_preset_loader_call "hf://distilbert/distilbert-base-uncased";
        check_backbone_class_call "hf://distilbert/distilbert-base-uncased";
        load_task_call "hf://distilbert/distilbert-base-uncased"
          "DistilBertClassifier" true [("num_classes", "2")]])
  ∧ Task.from_preset example_env "BertClassifier"
      "hf://distilbert/distilbert-base-uncased" true [] []
    = (Raise (UnsupportedPresetError
                "hf://distilbert/distilbert-base-uncased"
                "DistilBertBackbone"),
       [get_preset_loader_call "hf://distilbert/distilbert-base-uncased";
        check_backbone_class_call "hf://distilbert/distilbert-base-uncased";
        find_subclass_call "hf://distilbert/distilbert-base-uncased"
          "BertClassifier" "DistilBertBackbone"])
  ∧ Preprocessor.from_preset example_env "DistilBertPreprocessor"
      "hf://distilbert/distilbert-base-uncased" [] []
    = (Ok {| type_of := "DistilBertPreprocessor"; init_kwargs := [];
             weights_loaded := false |},
       [get_preset_loader_call "hf://distilbert/distilbert-base-uncased";
        check_backbone_class_call "hf://distilbert/distilbert-base-uncased";
        load_preprocessor_call "hf://distilbert/distilbert-base-uncased"
          "DistilBertPreprocessor" []]).
Proof.
  pose proof (λ cls args,
                from_preset_resolves_class example_env
                  "hf://distilbert/distilbert-base-uncased" example_loader
                  "DistilBertBackbone" cls args [] eq_refl eq_refl)
    as Hresolve.
  split; [| split; [| split]].
  - destruct (Hresolve "Classifier" [("num_classes", "2")]) as [Htask _].
    destruct (Htask ltac:(discriminate) false) as [[_ [Hone _]] _].
    apply (λ H, Hone H "DistilBertClassifier");
      [vm_compute; discriminate | vm_compute; reflexivity].
  - destruct (Hresolve "DistilBertClassifier" [("num_classes", "2")])
      as [Htask _].
    destruct (Htask ltac:(discriminate) true) as [[Hsame _] _].
    apply Hsame. reflexivity.
  - destruct (Hresolve "BertClassifier" []) as [Htask _].
    destruct (Htask ltac:(discriminate) true) as [[_ [_ Hnone]] _].
    apply Hnone; [vm_compute; discriminate | vm_compute; reflexivity].
  - destruct (Hresolve "DistilBertPreprocessor" []) as [_ Hpre].
    destruct (Hpre ltac:(discriminate)) as [[Hsame _] _].
    apply Hsame. reflexivity.
Defined.

(* ===================================================================== *)
(** * Further properties of saving and loading task weights               *)
(* ===================================================================== *)

Ltac run_method_in H :=
  repeat (progress
    (unfold mbind, M_bind, mret, M_ret, modify, get, raise, lift, when,
       call in H;
     cbn [for_each fst snd negb store calls
          vocabulary start_token end_token start_token_id end_token_id
          with_vocabulary with_start_token_id with_end_token_id with_tokens]
       in H)).

(** X1. [save_task_weights] calls [keras.saving.save_weights] exactly
    when the path ends in ".weights.h5" and [has_task_weights] is [True]:
    it is then the one call made, on that path and skipping the layers
    of the backbone, and [save_task_weights] returns or raises as that
    call does; otherwise it raises with no call made. So it returns
    normally exactly when the two tests pass and Keras returns. *)
Theorem save_task_weights_succeeds_iff
    (self : task_obj) (filepath : string) (w : world) :
  (endswith filepath ".weights.h5" = true →
   Task.has_task_weights self = Ok true →
   ∃ b, backbone self = Some b
        ∧ Task.save_task_weights self filepath w
          = perform (keras_saving_save_weights (name self) filepath
                       (list_to_set (backbone_flatten_layers b))) w)
  ∧ (¬ (endswith filepath ".weights.h5" = true
        ∧ Task.has_task_weights self = Ok true) →
     ∃ e, Task.save_task_weights self filepath w = (Raise e, w))
  ∧ (fst (Task.save_task_weights self filepath w) = Ok tt
     ↔ endswith filepath ".weights.h5" = true
       ∧ Task.has_task_weights self = Ok true
       ∧ ∃ b, backbone self = Some b
              ∧ answers w (calls w)
                  (keras_saving_save_weights (name self) filepath
                     (list_to_set (backbone_flatten_layers b))) = None).
Proof.
  unfold Task.save_task_weights, Task.backbone_layer_ids,
    Task.has_task_weights.
  destruct (endswith filepath ".weights.h5"); run_method.
  - destruct (backbone self) as [b |]; run_method.
    + destruct (bool_decide _); run_method.
      * split; [done |]. split; [eauto |].
        split; [done | by intros (_ & ? & _)].
      * split; [eauto |]. split; [by intros []; split |].
        unfold perform.
        destruct (answers w (calls w) _) as [e |] eqn:Hanswer.
        -- split; [done |]. intros (_ & _ & b' & [= <-] & Hb').
           congruence.
        -- split; [| done]. intros _. eauto.
    + split; [done |]. split; [eauto |].
      split; [done | by intros (_ & ? & _)].
  - split; [done |]. split; [eauto |].
    split; [done | by intros (? & _)].
Qed.

Lemma save_task_weights_succeeds_iff_example :
  fst (Task.save_task_weights (example_task [3]) "head.weights.h5"
         example_world) = Ok tt
  ∧ fst (Task.save_task_weights (example_task []) "head.weights.h5"
           example_world) ≠ Ok tt.
Proof.
  split.
  - apply (proj2 (proj2 (save_task_weights_succeeds_iff (example_task [3])
                           "head.weights.h5" example_world))).
    split; [vm_compute; reflexivity |]. split; [vm_compute; reflexivity |].
    exists example_backbone. split; reflexivity.
  - intros Hok.
    apply (proj2 (proj2 (save_task_weights_succeeds_iff (example_task [])
                           "head.weights.h5" example_world)))
      in Hok as (_ & Hhas & _).
    vm_compute in Hhas. discriminate.
Defined.

(** X3. On a task that has weights of its own and a path that ends in
    ".weights.h5", saving and loading both get past their checks and hand
    Keras the same set of objects to skip, the layers of the backbone, so
    that what the one leaves out the other leaves alone; the set does not
    depend on the order or the repetitions of the layers. This is so
    whether Keras then returns or raises. *)
Theorem save_and_load_skip_the_same
    (read_weights_file :
       string → gset object_id → gmap object_id tensor → gmap object_id tensor)
    (self : task_obj) (b : backbone_obj) (filepath : string) (w : world) :
  backbone self = Some b →
  endswith filepath ".weights.h5" = true →
  Task.has_task_weights self = Ok true →
  ∃ skip : gset object_id,
    (∀ x, x ∈ skip ↔ x ∈ backbone_flatten_layers b)
    ∧ calls (snd (Task.save_task_weights self filepath w))
      = (calls w
         ++ [keras_saving_save_weights (name self) filepath skip])%list
    ∧ calls (snd (Task.load_task_weights read_weights_file self filepath w))
      = (calls w
         ++ [keras_saving_load_weights (name self) filepath skip])%list.
Proof.
  intros Hb Hsuffix Hhas.
  exists (list_to_set (backbone_flatten_layers b)).
  split; [intros x; apply elem_of_list_to_set |].
  unfold Task.save_task_weights, Task.load_task_weights,
    Task.backbone_layer_ids.
  rewrite Hsuffix, Hb, Hhas. run_method.
  split; by rewrite perform_world.
Qed.

Lemma save_and_load_skip_the_same_example :
  ∃ skip : gset object_id,
    (∀ x, x ∈ skip ↔ x ∈ [10; 11])
    ∧ calls (snd (Task.save_task_weights (example_task [3])
                    "head.weights.h5" example_world))
      = [keras_saving_save_weights "classifier" "head.weights.h5" skip]
    ∧ calls (snd (Task.load_task_weights (λ _ _ st, st) (example_task [3])
                    "head.weights.h5" example_world))
      = [keras_saving_load_weights "classifier" "head.weights.h5" skip].
Proof.
  apply (save_and_load_skip_the_same (λ _ _ st, st) (example_task [3])
           example_backbone "head.weights.h5" example_world);
    vm_compute; reflexivity.
Defined.

(** X4. A task without backbone ([self.backbone] is [None]): asking
    [has_task_weights] raises [AttributeError]; with a path that ends in
    ".weights.h5", [save_task_weights] and [load_task_weights] raise
    [AttributeError] too, before any call to Keras and with every tensor
    as it was. *)
Theorem task_without_backbone
    (read_weights_file :
       string → gset object_id → gmap object_id tensor → gmap object_id tensor)
    (self : task_obj) (filepath : string) (w : world) :
  backbone self = None →
  (∃ msg, Task.has_task_weights self = Raise (AttributeError msg))
  ∧ (endswith filepath ".weights.h5" = true →
     (∃ msg, Task.save_task_weights self filepath w
             = (Raise (AttributeError msg), w))
     ∧ (∃ msg, Task.load_task_weights read_weights_file self filepath w
               = (Raise (AttributeError msg), w))).
Proof.
  intros Hb.
  unfold Task.has_task_weights, Task.save_task_weights,
    Task.load_task_weights, Task.backbone_layer_ids.
  rewrite Hb. split; [eauto |].
  intros ->. split; eexists; reflexivity.
Qed.

Lemma task_without_backbone_example :
  (∃ msg, Task.has_task_weights task_without_backbone_object
          = Raise (AttributeError msg))
  ∧ (endswith "head.weights.h5" ".weights.h5" = true →
     (∃ msg, Task.save_task_weights task_without_backbone_object
               "head.weights.h5" example_world
             = (Raise (AttributeError msg), example_world))
     ∧ (∃ msg, Task.load_task_weights (λ _ _ st, st)
                 task_without_backbone_object "head.weights.h5" example_world
               = (Raise (AttributeError msg), example_world))).
Proof.
  apply (task_without_backbone (λ _ _ st, st) task_without_backbone_object
           "head.weights.h5" example_world).
  reflexivity.
Defined.

(** X5. [save_to_preset] does not undo what it has written when a later
    step fails. On a task with a preprocessor but no backbone, once the
    configuration of the task is written it raises [AttributeError]. On a
    task whose preprocessor has no tokenizer the backbone is never saved:
    the calls made are a beginning of: task configuration, task weights
    (if any), preprocessor configuration; and once these have returned,
    it raises [AttributeError] with all of them made. *)
Theorem save_to_preset_no_rollback
    (TASK_CONFIG_FILE TASK_WEIGHTS_FILE PREPROCESSOR_CONFIG_FILE : string)
    (self : task_obj) (p : preprocessor_obj) (preset_dir : string)
    (w : world) :
  preprocessor self = Some p →
  let run :=
    Task.save_to_preset TASK_CONFIG_FILE TASK_WEIGHTS_FILE
      PREPROCESSOR_CONFIG_FILE self preset_dir w in
  (backbone self = None →
   answers w (calls w)
     (save_serialized_object (name self) preset_dir TASK_CONFIG_FILE) = None →
   (∃ msg, fst run = Raise (AttributeError msg))
   ∧ calls (snd run)
     = (calls w
        ++ [save_serialized_object (name self) preset_dir
              TASK_CONFIG_FILE])%list)
  ∧ (∀ b has,
       backbone self = Some b →
       tokenizer p = None →
       endswith TASK_WEIGHTS_FILE ".weights.h5" = true →
       Task.has_task_weights self = Ok has →
       let writes :=
         (own_writes TASK_CONFIG_FILE TASK_WEIGHTS_FILE self b preset_dir has
          ++ [save_serialized_object (preprocessor_name p) preset_dir
                PREPROCESSOR_CONFIG_FILE])%list in
       (∃ done, done `prefix_of` writes
                ∧ calls (snd run) = (calls w ++ done)%list)
       ∧ (all_return w writes →
          (∃ msg, fst run = Raise (AttributeError msg))
          ∧ calls (snd run) = (calls w ++ writes)%list)).
Proof.
  intros Hp. cbv zeta. split.
  - intros Hb Hreturns. unfold Task.save_to_preset, Task.has_task_weights.
    rewrite Hp, Hb. unfold mbind, M_bind.
    rewrite (perform_returns _ _ Hreturns). simpl. eauto.
  - intros b has Hb Htok Hsuffix Hhas.
    rewrite (save_to_preset_bare TASK_CONFIG_FILE TASK_WEIGHTS_FILE
               PREPROCESSOR_CONFIG_FILE self b p preset_dir has w
               Hsuffix Hp Hb Hhas Htok).
    unfold mbind, M_bind, raise. split.
    + destruct (for_each_calls
                  (own_writes TASK_CONFIG_FILE TASK_WEIGHTS_FILE self b
                     preset_dir has
                   ++ [save_serialized_object (preprocessor_name p)
                         preset_dir PREPROCESSOR_CONFIG_FILE]) w)
        as (done & Hpre & Hcalls & _).
      exists done. split; [done |].
      by destruct (for_each _ perform w) as [[[] | e] w1].
    + intros Hall.
      destruct (for_each_all_return _ w Hall) as [Hok Hcalls].
      destruct (for_each _ perform w) as [[[] | e] w1]; [| done].
      simpl in *. eauto.
Qed.

Lemma save_to_preset_no_rollback_example :
  ((∃ msg,
      fst (Task.save_to_preset "task.json" "task.weights.h5"
             "preprocessor.json" task_without_backbone_object "dir"
             example_world) = Raise (AttributeError msg))
   ∧ calls (snd (Task.save_to_preset "task.json" "task.weights.h5"
                   "preprocessor.json" task_without_backbone_object "dir"
                   example_world))
     = [save_serialized_object "classifier" "dir" "task.json"])
  ∧ ((∃ msg,
        fst (Task.save_to_preset "task.json" "task.weights.h5"
               "preprocessor.json" task_without_tokenizer "dir"
               example_world) = Raise (AttributeError msg))
     ∧ calls (snd (Task.save_to_preset "task.json" "task.weights.h5"
                     "preprocessor.json" task_without_tokenizer "dir"
                     example_world))
       = [save_serialized_object "classifier" "dir" "task.json";
          keras_saving_save_weights "classifier"
            "dir/task.weights.h5" (list_to_set [10; 11]);
          save_serialized_object "preprocessor" "dir" "preprocessor.json"]).
Proof.
  split.
  - apply (save_to_preset_no_rollback "task.json" "task.weights.h5"
             "preprocessor.json" task_without_backbone_object
             example_preprocessor "dir" example_world eq_refl);
      reflexivity.
  - apply (proj2 (save_to_preset_no_rollback "task.json" "task.weights.h5"
                    "preprocessor.json" task_without_tokenizer
                    preprocessor_without_tokenizer
                    "dir" example_world eq_refl)
             example_backbone true eq_refl eq_refl eq_refl eq_refl).
    vm_compute. tauto.
Defined.



(* ===================================================================== *)
(** * Properties of [Task.layers]                                         *)
(* ===================================================================== *)

Section LayersFacts.

Implicit Types (x p : object_id) (l : list object_id).

Lemma list_remove_first p l :
  p ∈ l →
  ∃ l1 l2, l = (l1 ++ p :: l2)%list ∧ (p ∉ l1)
           ∧ list_remove p l = Some (l1 ++ l2)%list.
Proof.
  induction l as [| y l IH]; intros Hin; [by apply not_elem_of_nil in Hin |].
  simpl. destruct (decide (y = p)) as [-> | Hne].
  - exists [], l. split; [done |]. split; [apply not_elem_of_nil | done].
  - apply elem_of_cons in Hin as [-> | Hin]; [done |].
    destruct (IH Hin) as (l1 & l2 & -> & Hl1 & ->).
    exists (y :: l1), l2. split; [done |]. split; [| done].
    intros [? | ?]%elem_of_cons; [by subst | done].
Qed.

Lemma filter_other_app_cons p l1 l2 :
  filter (λ x, x ≠ p) (l1 ++ p :: l2)%list
  = filter (λ x, x ≠ p) (l1 ++ l2)%list.
Proof.
  rewrite !filter_app, filter_cons_False; [done |]. by intros ?.
Qed.

Lemma filter_other_id p l : p ∉ l → filter (λ x, x ≠ p) l = l.
Proof.
  induction l as [| y l IH]; intros Hnin; [done |].
  apply not_elem_of_cons in Hnin as [Hne Hnin].
  rewrite filter_cons_True by done. by rewrite IH.
Qed.

Lemma layers_present l p :
  p ∈ l →
  ∃ before after,
    l = (before ++ p :: after)%list ∧ (p ∉ before)
    ∧ Task.layers l (Some p) = Ok (before ++ after)%list.
Proof.
  intros Hin. unfold Task.layers. rewrite bool_decide_eq_true_2 by done.
  destruct (list_remove_first p l Hin) as (before & after & Heq & Hbefore & ->).
  eauto.
Qed.

End LayersFacts.

(** X7. [Task.layers] never raises. Without preprocessor, or with a
    preprocessor that is not among the layers, it gives the layers as
    they are; otherwise it gives them without the first occurrence of the
    preprocessor, every other item staying where it was. *)
Theorem layers_removes_first_occurrence
    (super_layers : list object_id) (p : object_id) :
  Task.layers super_layers None = Ok super_layers
  ∧ (p ∉ super_layers →
     Task.layers super_layers (Some p) = Ok super_layers)
  ∧ (p ∈ super_layers →
     ∃ before after,
       super_layers = (before ++ p :: after)%list
       ∧ (p ∉ before)
       ∧ Task.layers super_layers (Some p) = Ok (before ++ after)%list).
Proof.
  split; [done |]. split.
  - intros Hnin. unfold Task.layers. by rewrite bool_decide_eq_false_2.
  - apply layers_present.
Qed.

Lemma layers_removes_first_occurrence_example :
  Task.layers [4; 5; 6] (Some 7) = Ok [4; 5; 6]
  ∧ ∃ before after,
      [5; 4; 5] = (before ++ 5 :: after)%list
      ∧ (5 ∉ before)
      ∧ Task.layers [5; 4; 5] (Some 5) = Ok (before ++ after)%list.
Proof.
  split.
  - apply (layers_removes_first_occurrence [4; 5; 6] 7).
    intros Hin. apply list_elem_of_In in Hin. simpl in Hin.
    intuition discriminate.
  - apply (layers_removes_first_occurrence [5; 4; 5] 5).
    apply list_elem_of_here.
Defined.

(** X8. When no layer is listed twice, the layers [Task.layers] gives are
    exactly the other layers, in their order: the preprocessor is not
    among them and nothing else is dropped. *)
Theorem layers_without_preprocessor
    (super_layers : list object_id) (p : object_id) :
  NoDup super_layers →
  Task.layers super_layers (Some p)
  = Ok (filter (λ x, x ≠ p) super_layers)
  ∧ p ∉ filter (λ x, x ≠ p) super_layers.
Proof.
  intros Hnodup. split.
  - destruct (decide (p ∈ super_layers)) as [Hin | Hnin].
    + destruct (layers_present super_layers p Hin)
        as (before & after & Heq & Hbefore & ->).
      f_equal. rewrite Heq, filter_other_app_cons.
      symmetry. apply filter_other_id.
      rewrite Heq in Hnodup. apply NoDup_app in Hnodup as (_ & Hdisj & Hafter).
      apply NoDup_cons in Hafter as [Hafter _].
      intros [? | ?]%elem_of_app; done.
    + unfold Task.layers. rewrite bool_decide_eq_false_2 by done.
      by rewrite filter_other_id.
  - intros [Hne _]%list_elem_of_filter. done.
Qed.

Lemma layers_without_preprocessor_example :
  Task.layers [4; 5; 6] (Some 5) = Ok [4; 6]
  ∧ 5 ∉ [4; 6].
Proof.
  apply (layers_without_preprocessor [4; 5; 6] 5).
  repeat constructor; intros Hin; apply list_elem_of_In in Hin; simpl in Hin;
    intuition discriminate.
Defined.

(** A preprocessor listed twice stays listed once. *)
Example layers_listed_twice : Task.layers [5; 4; 5] (Some 5) = Ok [4; 5].
Proof. reflexivity. Qed.

(* ===================================================================== *)
(** * Properties of [get_config] and [from_config]                        *)
(* ===================================================================== *)

Section ConfigFacts.

Variable deserialize : list (string * pyvalue) → result pyvalue.
Implicit Types (config : gmap string pyvalue) (key k : string) (v : pyvalue).

Lemma deserialize_entry_run key config :
  deserialize_entry deserialize key config
  = match config !! key with
    | Some (VDict d) =>
        match deserialize d with
        | Ok v => (Ok tt, <[key := v]> config)
        | Raise e => (Raise e, config)
        end
    | _ => (Ok tt, config)
    end.
Proof.
  unfold deserialize_entry. run_method.
  destruct (config !! key) as [[] |]; reflexivity.
Qed.

(** One entry: what the statement leaves in the dict. *)
Lemma deserialize_entry_frame key config :
  let config' := snd (deserialize_entry deserialize key config) in
  dom config' = dom config
  ∧ (∀ k, k ≠ key → config' !! k = config !! k)
  ∧ (∀ k v, config !! k = Some v → (∀ d, v ≠ VDict d) → config' !! k = Some v).
Proof.
  rewrite deserialize_entry_run.
  destruct (config !! key) as [v0 |] eqn:Hkey; [| done].
  destruct v0 as [| | d | | |]; try done.
  destruct (deserialize d) as [v' | e]; [| done]. simpl.
  split; [| split].
  - by apply dom_insert_lookup_L.
  - intros k Hne. by rewrite lookup_insert_ne.
  - intros k v Hk Hv. destruct (decide (key = k)) as [-> | Hne].
    + rewrite Hkey in Hk. injection Hk as <-. by destruct (Hv d).
    + by rewrite lookup_insert_ne.
Qed.

Lemma deserialize_entry_skip key config :
  (∀ d, config !! key ≠ Some (VDict d)) →
  deserialize_entry deserialize key config = (Ok tt, config).
Proof.
  intros Hkey. rewrite deserialize_entry_run.
  destruct (config !! key) as [[] |]; try done. by destruct (Hkey d).
Qed.

End ConfigFacts.

(** X9. [Task.from_config] touches nothing but dict values under the keys
    "backbone" and "preprocessor": whether it returns or raises, the dict
    it was given has the same keys afterwards, the same value under every
    other key, and the same value wherever the value is not a dict; and
    when neither of the two keys holds a dict, nothing is deserialized and
    the constructor gets the dict as it is. *)
Theorem task_from_config_passes_through
    (deserialize : list (string * pyvalue) → result pyvalue)
    (constructed : Type)
    (construct : Cls → gmap string pyvalue → result constructed)
    (cls : Cls) (config : gmap string pyvalue) :
  let run := Task.from_config deserialize constructed construct cls config in
  dom (snd run) = dom config
  ∧ (∀ k, k ≠ "backbone" → k ≠ "preprocessor" → snd run !! k = config !! k)
  ∧ (∀ k v, config !! k = Some v → (∀ d, v ≠ VDict d) →
            snd run !! k = Some v)
  ∧ ((∀ d, config !! "backbone" ≠ Some (VDict d)) →
     (∀ d, config !! "preprocessor" ≠ Some (VDict d)) →
     run = (construct cls config, config)).
Proof.
  unfold Task.from_config.
  pose proof (deserialize_entry_frame deserialize "backbone" config)
    as (Hdom1 & Hother1 & Hkeep1).
  split; [| split; [| split]].
  - run_method.
    destruct (deserialize_entry deserialize "backbone" config)
      as [[[] | e] c1]; simpl in *; [| done].
    pose proof (deserialize_entry_frame deserialize "preprocessor" c1)
      as (Hdom2 & _ & _).
    destruct (deserialize_entry deserialize "preprocessor" c1)
      as [[[] | e] c2]; simpl in *; congruence.
  - intros k Hb Hp. run_method.
    destruct (deserialize_entry deserialize "backbone" config)
      as [[[] | e] c1]; simpl in *; [| by apply Hother1].
    pose proof (deserialize_entry_frame deserialize "preprocessor" c1)
      as (_ & Hother2 & _).
    destruct (deserialize_entry deserialize "preprocessor" c1)
      as [[[] | e] c2]; simpl in *; rewrite Hother2 by done; by apply Hother1.
  - intros k v Hk Hv. run_method.
    destruct (deserialize_entry deserialize "backbone" config)
      as [[[] | e] c1]; simpl in *; [| by apply Hkeep1].
    pose proof (deserialize_entry_frame deserialize "preprocessor" c1)
      as (_ & _ & Hkeep2).
    destruct (deserialize_entry deserialize "preprocessor" c1)
      as [[[] | e] c2]; simpl in *; apply Hkeep2; auto.
  - intros Hb Hp. run_method.
    rewrite (deserialize_entry_skip deserialize "backbone" config Hb).
    rewrite (deserialize_entry_skip deserialize "preprocessor" config Hp).
    reflexivity.
Qed.

Lemma task_from_config_passes_through_example :
  Task.from_config (λ _, Raise (ValueError "unused")) _ example_construct
    "Classifier"
    (<["backbone" := VBackbone example_backbone]>
       (<["num_classes" := VStr "2"]> ∅))
  = (Ok ("Classifier",
         <["backbone" := VBackbone example_backbone]>
           (<["num_classes" := VStr "2"]> ∅)),
     <["backbone" := VBackbone example_backbone]>
       (<["num_classes" := VStr "2"]> ∅)).
Proof.
  apply (task_from_config_passes_through (λ _, Raise (ValueError "unused")) _
           example_construct "Classifier"
           (<["backbone" := VBackbone example_backbone]>
              (<["num_classes" := VStr "2"]> ∅)));
    intros d; vm_compute; discriminate.
Defined.

(** X10. [Task.from_config] on a dict that holds a dict under "backbone"
    and under "preprocessor": when both deserialize, the constructor gets
    the dict with the two objects in their place, and so does the caller,
    whose dict it is; when the backbone does not deserialize, the error
    comes out with the dict as it was; when the preprocessor does not,
    the error comes out with the backbone already replaced. The
    constructor is not called in the last two cases. *)
Theorem task_from_config_deserializes
    (deserialize : list (string * pyvalue) → result pyvalue)
    (constructed : Type)
    (construct : Cls → gmap string pyvalue → result constructed)
    (cls : Cls) (config : gmap string pyvalue)
    (db dp : list (string * pyvalue)) :
  config !! "backbone" = Some (VDict db) →
  config !! "preprocessor" = Some (VDict dp) →
  let run := Task.from_config deserialize constructed construct cls config in
  (∀ b p, deserialize db = Ok b → deserialize dp = Ok p →
     let config' := <["preprocessor" := p]> (<["backbone" := b]> config) in
     run = (construct cls config', config'))
  ∧ (∀ e, deserialize db = Raise e → run = (Raise e, config))
  ∧ (∀ b e, deserialize db = Ok b → deserialize dp = Raise e →
       run = (Raise e, <["backbone" := b]> config)).
Proof.
  intros Hb Hp. unfold Task.from_config. run_method.
  rewrite deserialize_entry_run, Hb.
  split; [| split].
  - intros b p Hdb Hdp. rewrite Hdb, deserialize_entry_run.
    rewrite lookup_insert_ne, Hp, Hdp by done. reflexivity.
  - intros e Hdb. by rewrite Hdb.
  - intros b e Hdb Hdp. rewrite Hdb, deserialize_entry_run.
    rewrite lookup_insert_ne, Hp, Hdp by done. reflexivity.
Qed.

Lemma task_from_config_deserializes_example :
  Task.from_config example_deserialize _ example_construct "BertClassifier"
    (<["backbone" := VDict [("config", VBackbone example_backbone)]]>
       (<["preprocessor" := VDict []]> (<["name" := VStr "classifier"]> ∅)))
  = (Raise (ValueError "not a serialized object"),
     <["backbone" := VBackbone example_backbone]>
       (<["preprocessor" := VDict []]> (<["name" := VStr "classifier"]> ∅))).
Proof.
  pose proof (task_from_config_deserializes example_deserialize _
                example_construct "BertClassifier"
                (<["backbone" := VDict [("config", VBackbone example_backbone)]]>
                   (<["preprocessor" := VDict []]>
                      (<["name" := VStr "classifier"]> ∅)))
                [("config", VBackbone example_backbone)] []
                eq_refl eq_refl) as (_ & _ & Hlate).
  exact (Hlate (VBackbone example_backbone)
           (ValueError "not a serialized object") eq_refl eq_refl).
Defined.

Section RoundTrip.

Variable serialize : pyvalue → pyvalue.
Variable deserialize : list (string * pyvalue) → result pyvalue.

(** [deserialize] undoes [serialize], and what [serialize] does not turn
    into a dict it leaves as it is (as it does for [None]). *)
Hypothesis deserialize_serialize :
  ∀ v d, serialize v = VDict d → deserialize d = Ok v.
Hypothesis serialize_dict_or_same :
  ∀ v, (∃ d, serialize v = VDict d) ∨ serialize v = v.

(** Rebuilding the entry of a serialized value gives the value back. *)
Lemma deserialize_entry_serialized key v (config : gmap string pyvalue) :
  deserialize_entry deserialize key (<[key := serialize v]> config)
  = (Ok tt, <[key := v]> config).
Proof.
  rewrite deserialize_entry_run, lookup_insert_eq.
  destruct (serialize_dict_or_same v) as [[d Hd] | Hsame].
  - rewrite Hd, (deserialize_serialize v d Hd). by rewrite insert_insert_eq.
  - rewrite Hsame. destruct v as [| | d | | |]; try reflexivity.
    rewrite (deserialize_serialize (VDict d) d Hsame).
    by rewrite insert_insert_eq.
Qed.

End RoundTrip.

(** X11. Round trip of a task: when [deserialize] undoes [serialize],
    [from_config] on the dict [get_config] gives calls the constructor
    with the backbone, the preprocessor ([None] included) and the name of
    the task. *)
Theorem task_config_round_trip
    (serialize : pyvalue → pyvalue)
    (deserialize : list (string * pyvalue) → result pyvalue)
    (constructed : Type)
    (construct : Cls → gmap string pyvalue → result constructed)
    (cls : Cls) (self : task_obj) :
  (∀ v d, serialize v = VDict d → deserialize d = Ok v) →
  (∀ v, (∃ d, serialize v = VDict d) ∨ serialize v = v) →
  let kwargs : gmap string pyvalue :=
    <["backbone" := backbone_value (backbone self)]>
      (<["preprocessor" := preprocessor_value (preprocessor self)]>
         (<["name" := VStr (name self)]> ∅)) in
  Task.from_config deserialize constructed construct cls
    (Task.get_config serialize self)
  = (construct cls kwargs, kwargs).
Proof.
  intros Hinv Hsame. unfold Task.from_config, Task.get_config. run_method.
  rewrite (deserialize_entry_serialized serialize deserialize Hinv Hsame).
  rewrite (insert_insert_ne _ "backbone" "preprocessor") by done.
  rewrite (deserialize_entry_serialized serialize deserialize Hinv Hsame).
  by rewrite (insert_insert_ne _ "preprocessor" "backbone").
Qed.

Lemma example_deserialize_serialize v d :
  example_serialize v = VDict d → example_deserialize d = Ok v.
Proof. destruct v; simpl; intros [= <-]; reflexivity. Qed.

Lemma example_serialize_dict_or_same v :
  (∃ d, example_serialize v = VDict d) ∨ example_serialize v = v.
Proof. destruct v; simpl; eauto. Qed.

Lemma task_config_round_trip_example :
  Task.from_config example_deserialize _ example_construct "Classifier"
    (Task.get_config example_serialize task_without_preprocessor)
  = (Ok ("Classifier",
         <["backbone" := VBackbone example_backbone]>
           (<["preprocessor" := VNone]>
              (<["name" := VStr "classifier"]> ∅))),
     <["backbone" := VBackbone example_backbone]>
       (<["preprocessor" := VNone]> (<["name" := VStr "classifier"]> ∅))).
Proof.
  apply (task_config_round_trip example_serialize example_deserialize _
           example_construct "Classifier" task_without_preprocessor
           example_deserialize_serialize example_serialize_dict_or_same).
Defined.

(** X12. [from_config] changes the dict of its caller, and a dict it has
    accepted is one it accepts again: when no deserialized object is a
    dict, calling [from_config] a second time on the same dict
    deserializes nothing (whatever the deserializer would do) and
    constructs from the same keyword arguments. *)
Theorem task_from_config_twice
    (deserialize deserialize' : list (string * pyvalue) → result pyvalue)
    (constructed : Type)
    (construct : Cls → gmap string pyvalue → result constructed)
    (cls : Cls) (config config' : gmap string pyvalue) (o : constructed) :
  (∀ d v, deserialize d = Ok v → ∀ d', v ≠ VDict d') →
  Task.from_config deserialize constructed construct cls config
  = (Ok o, config') →
  Task.from_config deserialize' constructed construct cls config'
  = (Ok o, config').
Proof.
  intros Hobj. unfold Task.from_config. run_method.
  assert (∀ key c c', deserialize_entry deserialize key c = (Ok tt, c') →
                      ∀ d, c' !! key ≠ Some (VDict d)) as Hdone.
  { intros key c c'. rewrite deserialize_entry_run.
    destruct (c !! key) as [v |] eqn:Hkey.
    - destruct v as [| | d0 | | |];
        try (intros [= <-] d; rewrite Hkey; congruence).
      destruct (deserialize d0) as [v' |] eqn:Hd0; [| done].
      intros [= <-] d. rewrite lookup_insert_eq. intros [= ->].
      by apply (Hobj d0 (VDict d) Hd0 d).
    - intros [= <-] d. by rewrite Hkey. }
  destruct (deserialize_entry deserialize "backbone" config)
    as [[[] | e] c1] eqn:Hrun1; [| done].
  destruct (deserialize_entry deserialize "preprocessor" c1)
    as [[[] | e] c2] eqn:Hrun2; [| done].
  intros Hrun. injection Hrun as Hconstruct <-.
  assert (∀ d, c2 !! "backbone" ≠ Some (VDict d)) as Hb.
  { intros d Hd.
    pose proof (deserialize_entry_frame deserialize "preprocessor" c1)
      as (_ & Hother & _).
    rewrite Hrun2 in Hother. simpl in Hother.
    rewrite Hother in Hd by done. by apply (Hdone _ _ _ Hrun1 d). }
  rewrite (deserialize_entry_skip deserialize' "backbone" c2 Hb).
  rewrite (deserialize_entry_skip deserialize' "preprocessor" c2
             (Hdone _ _ _ Hrun2)).
  by rewrite Hconstruct.
Qed.

Lemma example_deserialize_object_not_dict d v :
  example_deserialize_object d = Ok v → ∀ d', v ≠ VDict d'.
Proof.
  destruct d as [| [k v0] [|]]; [discriminate | |];
    destruct v0; simpl; try discriminate; intros [= <-] d'; discriminate.
Qed.

Lemma task_from_config_twice_example :
  Task.from_config (λ _, Raise (ValueError "unused")) _ example_construct
    "Classifier"
    (<["backbone" := VBackbone example_backbone]>
       (<["preprocessor" := VNone]> (<["name" := VStr "classifier"]> ∅)))
  = (Ok ("Classifier",
         <["backbone" := VBackbone example_backbone]>
           (<["preprocessor" := VNone]>
              (<["name" := VStr "classifier"]> ∅))),
     <["backbone" := VBackbone example_backbone]>
       (<["preprocessor" := VNone]> (<["name" := VStr "classifier"]> ∅))).
Proof.
  apply (task_from_config_twice example_deserialize_object
           (λ _, Raise (ValueError "unused")) _ example_construct "Classifier"
           (Task.get_config example_serialize task_without_preprocessor)).
  - exact example_deserialize_object_not_dict.
  - vm_compute. reflexivity.
Defined.

(** X13. Round trip of a preprocessor: when [deserialize] undoes
    [serialize], [from_config] on the dict [get_config] gives calls the
    constructor with the configuration of the base layer, in which
    "tokenizer" is bound to the tokenizer of the preprocessor ([None]
    included), whatever the base layer had put under that key. *)
Theorem preprocessor_config_round_trip
    (serialize : pyvalue → pyvalue)
    (deserialize : list (string * pyvalue) → result pyvalue)
    (base_get_config : preprocessor_obj → gmap string pyvalue)
    (constructed : Type)
    (construct : Cls → gmap string pyvalue → result constructed)
    (cls : Cls) (self : preprocessor_obj) :
  (∀ v d, serialize v = VDict d → deserialize d = Ok v) →
  (∀ v, (∃ d, serialize v = VDict d) ∨ serialize v = v) →
  let kwargs : gmap string pyvalue :=
    <["tokenizer" := tokenizer_value (tokenizer self)]> (base_get_config self) in
  Preprocessor.from_config deserialize constructed construct cls
    (Preprocessor.get_config serialize base_get_config self)
  = (construct cls kwargs, kwargs)
  ∧ (∀ k, k ≠ "tokenizer" → kwargs !! k = base_get_config self !! k).
Proof.
  intros Hinv Hsame. split.
  - unfold Preprocessor.from_config, Preprocessor.get_config. run_method.
    by rewrite (deserialize_entry_serialized serialize deserialize Hinv Hsame).
  - intros k Hne. by rewrite lookup_insert_ne.
Qed.

Lemma preprocessor_config_round_trip_example :
  Preprocessor.from_config example_deserialize _ example_construct
    "BertPreprocessor"
    (Preprocessor.get_config example_serialize
       (λ _, <["tokenizer" := VStr "stale"]> (<["name" := VStr "p"]> ∅))
       example_preprocessor)
  = (Ok ("BertPreprocessor",
         <["tokenizer" := VTokenizer "tokenizer"]> (<["name" := VStr "p"]> ∅)),
     <["tokenizer" := VTokenizer "tokenizer"]> (<["name" := VStr "p"]> ∅)).
Proof.
  exact (proj1 (preprocessor_config_round_trip example_serialize
                  example_deserialize
                  (λ _, <["tokenizer" := VStr "stale"]>
                          (<["name" := VStr "p"]> ∅))
                  _ example_construct "BertPreprocessor" example_preprocessor
                  example_deserialize_serialize
                  example_serialize_dict_or_same)).
Defined.

(* ===================================================================== *)
(** * Further properties of [from_preset]                                 *)
(* ===================================================================== *)

(** X14. Errors of the loader come out of [from_preset] as they are, on
    a class other than the base class: when [get_preset_loader] raises,
    nothing else has been called; when [check_backbone_class] raises, no
    subclass has been searched and nothing has been loaded. *)
Theorem from_preset_loader_errors (env : environment) (cls : Cls)
    (preset : string) (load_weights : bool) (args : kwargs)
    (tr : list loader_call) (e : exn) :
  (get_preset_loader env preset = Raise e →
   (cls ≠ Task_class →
    Task.from_preset env cls preset load_weights args tr
    = (Raise e, (tr ++ [get_preset_loader_call preset])%list))
   ∧ (cls ≠ Preprocessor_class →
      Preprocessor.from_preset env cls preset args tr
      = (Raise e, (tr ++ [get_preset_loader_call preset])%list)))
  ∧ (∀ loader,
       get_preset_loader env preset = Ok loader →
       check_backbone_class loader = Raise e →
       (cls ≠ Task_class →
        Task.from_preset env cls preset load_weights args tr
        = (Raise e, (tr ++ [get_preset_loader_call preset;
                            check_backbone_class_call preset])%list))
       ∧ (cls ≠ Preprocessor_class →
          Preprocessor.from_preset env cls preset args tr
          = (Raise e, (tr ++ [get_preset_loader_call preset;
                              check_backbone_class_call preset])%list))).
Proof.
  unfold Task.from_preset, Preprocessor.from_preset. split.
  - intros Hloader. split; intros Hcls;
      rewrite bool_decide_eq_false_2 by done;
      run_method; rewrite Hloader; reflexivity.
  - intros loader Hloader Hcheck. split; intros Hcls;
      rewrite bool_decide_eq_false_2 by done;
      run_method; rewrite Hloader; run_method; rewrite Hcheck; run_method;
      by rewrite <- app_assoc.
Qed.

Lemma from_preset_loader_errors_example :
  Task.from_preset example_env "Classifier" "no_such_preset" true [] []
  = (Raise (ValueError "unknown preset"),
     [get_preset_loader_call "no_such_preset"])
  ∧ Preprocessor.from_preset example_env "BertPreprocessor" "no_such_preset"
      [] []
    = (Raise (ValueError "unknown preset"),
       [get_preset_loader_call "no_such_preset"]).
Proof.
  destruct (proj1 (from_preset_loader_errors example_env "Classifier"
                     "no_such_preset" true [] []
                     (ValueError "unknown preset")) eq_refl) as [Htask _].
  destruct (proj1 (from_preset_loader_errors example_env "BertPreprocessor"
                     "no_such_preset" true [] []
                     (ValueError "unknown preset")) eq_refl) as [_ Hpre].
  split; [apply Htask | apply Hpre]; discriminate.
Defined.

(* ===================================================================== *)
(** * Further properties of the preset enumeration                        *)
(* ===================================================================== *)

Section MergeSources.

Implicit Types (acc p : gmap string preset_info)
  (ps : list (gmap string preset_info)).

(** A binding of the merged dict is a binding of one of the dicts. *)
Lemma foldl_update_source ps acc k v :
  foldl dict_update acc ps !! k = Some v →
  acc !! k = Some v ∨ ∃ p, p ∈ ps ∧ p !! k = Some v.
Proof.
  revert acc. induction ps as [| p ps IH]; intros acc; simpl; [by left |].
  intros Hk. destruct (IH _ Hk) as [Hacc | (p' & Hin & Hp')].
  - unfold dict_update in Hacc.
    apply lookup_union_Some_raw in Hacc as [Hp | [_ Hacc]].
    + right. exists p. split; [apply list_elem_of_here | done].
    + by left.
  - right. exists p'. split; [by apply list_elem_of_further | done].
Qed.



End MergeSources.

Section EnumerationFacts.

Variable env : environment.
Variable attribute : Cls → option Cls.

Implicit Types (cls sub : Cls) (fuel : nat)
  (r p : gmap string preset_info) (ps : list (gmap string preset_info)).

(** A run that returns has merged the enumerations of the subclasses. *)
Lemma class_presets_inv fuel cls r :
  class_presets env attribute fuel cls = Some r →
  ∃ fuel0 ps,
    fuel = S fuel0
    ∧ Forall2 (λ sub p, class_presets env attribute fuel0 sub = Some p)
        (list_subclasses env cls) ps
    ∧ r = foldl dict_update
            (foldl dict_update (list_presets env cls)
               (companion_sources env attribute cls)) ps.
Proof.
  destruct fuel as [| fuel0]; [done |]. rewrite class_presets_S. intros Hr.
  destruct (foldl_update_from_inv _ _ _ _ Hr) as [ps Hps].
  rewrite (foldl_update_from_Some _ _ ps _ Hps) in Hr.
  exists fuel0, ps. split; [done |]. split; [done | congruence].
Qed.






Lemma class_presets_source fuel cls r k v :
  class_presets env attribute fuel cls = Some r →
  r !! k = Some v →
  list_presets env cls !! k = Some v
  ∨ (∃ c, attribute cls = Some c ∧ companion_presets env c !! k = Some v)
  ∨ (∃ sub p fuel',
       sub ∈ list_subclasses env cls
       ∧ class_presets env attribute fuel' sub = Some p
       ∧ p !! k = Some v).
Proof.
  intros Hr Hk.
  destruct (class_presets_inv fuel cls r Hr) as (fuel0 & ps & _ & Hps & ->).
  apply foldl_update_source in Hk as [Hk | (p & Hin & Hp)].
  - apply foldl_update_source in Hk as [Hk | (p & Hin & Hp)]; [by left |].
    right. left. unfold companion_sources in Hin.
    destruct (attribute cls) as [c |]; [| by apply not_elem_of_nil in Hin].
    apply list_elem_of_singleton in Hin as ->. eauto.
  - right. right. apply list_elem_of_lookup in Hin as [i Hi].
    destruct (Forall2_lookup_r _ _ _ _ _ Hps Hi) as (sub & Hsub & Hrun).
    exists sub, p, fuel0. split; [| done].
    apply list_elem_of_lookup. eauto.
Qed.



End EnumerationFacts.



(** X16. The enumeration invents nothing: every binding of the result is
    a binding registered on the class, a binding of its backbone class
    (tokenizer class for a preprocessor), or a binding of the enumeration
    of one of its listed subclasses. *)
Theorem presets_bindings_have_a_source (env : environment)
    (fuel : nat) (cls : Cls) (r : gmap string preset_info)
    (k : string) (v : preset_info) :
  r !! k = Some v →
  (Task.presets env fuel cls = Some r →
   list_presets env cls !! k = Some v
   ∨ (∃ c, backbone_cls env cls = Some c
           ∧ companion_presets env c !! k = Some v)
   ∨ (∃ sub p fuel',
        sub ∈ list_subclasses env cls
        ∧ Task.presets env fuel' sub = Some p
        ∧ p !! k = Some v))
  ∧ (Preprocessor.presets env fuel cls = Some r →
     list_presets env cls !! k = Some v
     ∨ (∃ c, tokenizer_cls env cls = Some c
             ∧ companion_presets env c !! k = Some v)
     ∨ (∃ sub p fuel',
          sub ∈ list_subclasses env cls
          ∧ Preprocessor.presets env fuel' sub = Some p
          ∧ p !! k = Some v)).
Proof.
  intros Hk. unfold Task.presets, Preprocessor.presets.
  split; intros Hr; by apply (class_presets_source env _ fuel cls r k v).
Qed.

Lemma presets_bindings_have_a_source_example :
  ∃ sub p fuel',
    sub ∈ list_subclasses example_env "Classifier"
    ∧ Task.presets example_env fuel' sub = Some p
    ∧ p !! "distil_bert_base_en" = Some "registered on DistilBertBackbone".
Proof.
  assert (∃ r, Task.presets example_env 2 "Classifier" = Some r
               ∧ r !! "distil_bert_base_en"
                 = Some "registered on DistilBertBackbone")
    as (r & Hr & Hk).
  { eexists. split; [reflexivity |]. vm_compute. reflexivity. }
  destruct (proj1 (presets_bindings_have_a_source example_env 2 "Classifier"
                     r "distil_bert_base_en"
                     "registered on DistilBertBackbone" Hk) Hr)
    as [Hown | [(c & Hc & _) | Hsub]].
  - vm_compute in Hown. discriminate.
  - vm_compute in Hc. discriminate.
  - exact Hsub.
Defined.





(* ===================================================================== *)
(** * A further property of the tokenizer configuration                   *)
(* ===================================================================== *)

(** X19. A failed configuration is not rolled back. When a tokenizer that
    was configured with a vocabulary holding "<s>" and "</s>" is
    configured again with a vocabulary that lacks one of them, the second
    call raises the [ValueError], and the tokenizer is left with the new
    vocabulary (the base class has installed it before the check) and
    with the ids of the old one. *)
Theorem set_proto_failure_keeps_old_ids
    (V V' : gmap string Z) (t : mistral_tokenizer) (s e : Z) :
  MistralTokenizer.special_tokens_set t →
  V !! "<s>" = Some s →
  V !! "</s>" = Some e →
  V' !! "<s>" = None ∨ V' !! "</s>" = None →
  ∃ token,
    (MistralTokenizer.set_proto (Some V) ;;
     MistralTokenizer.set_proto (Some V')) t
    = (Raise (ValueError (MistralTokenizer.missing_token_message token)),
       {| vocabulary := Some V';
          start_token := "<s>"; end_token := "</s>";
          start_token_id := PyInt s; end_token_id := PyInt e |})
    ∧ V' !! token = None.
Proof.
  intros [Hs He] HVs HVe Hmiss. destruct t as [v st et sid eid]; simpl in *; subst.
  unfold MistralTokenizer.set_proto, SentencePieceTokenizer.set_proto,
    SentencePieceTokenizer.get_vocabulary, SentencePieceTokenizer.token_to_id.
  run_method.
  rewrite (in_vocabulary_true V "<s>" s HVs); run_method.
  rewrite (in_vocabulary_true V "</s>" e HVe); run_method.
  rewrite HVs; run_method. rewrite HVe; run_method.
  destruct (V' !! "<s>") as [i |] eqn:HVs'.
  - destruct Hmiss as [? | HVe']; [discriminate |].
    rewrite (in_vocabulary_true V' "<s>" i HVs'); run_method.
    rewrite (in_vocabulary_false V' "</s>" HVe').
    exists "</s>". done.
  - rewrite (in_vocabulary_false V' "<s>" HVs').
    exists "<s>". done.
Qed.

Lemma set_proto_failure_keeps_old_ids_example :
  ∃ token,
    (MistralTokenizer.set_proto (Some example_vocabulary) ;;
     MistralTokenizer.set_proto (Some vocabulary_without_start))
      (with_tokens "<s>" "</s>" MistralTokenizer.new_object)
    = (Raise (ValueError (MistralTokenizer.missing_token_message token)),
       {| vocabulary := Some vocabulary_without_start;
          start_token := "<s>"; end_token := "</s>";
          start_token_id := PyInt 0; end_token_id := PyInt 1 |})
    ∧ vocabulary_without_start !! token = None.
Proof.
  apply (set_proto_failure_keeps_old_ids example_vocabulary
           vocabulary_without_start
           (with_tokens "<s>" "</s>" MistralTokenizer.new_object) 0 1).
  - split; reflexivity.
  - reflexivity.
  - reflexivity.
  - left. reflexivity.
Defined.
